(** * docling-wrapper.py: a shallow embedding of the result shaper

    The script [services/nexus-graphrag/scripts/docling-wrapper.py] calls an
    external document converter and reshapes whatever object comes back into
    a plain dictionary that is printed as JSON (or as raw text).  The
    development below follows the script top to bottom:

    - Python values, dictionaries and the builtins the script relies on;
    - the attribute surface of the external objects, as the script probes it
      ([hasattr], attribute access, iteration, [str], [int]);
    - the effects of a run (log lines, the conversion call, what is printed
      or written) in a small writer/exception monad;
    - [DoclingProcessor.initialize_converter], [process_document] and [main];
    - the properties of the flattened output.

    Modelling conventions.  Strings are byte strings (UTF-8).  Exceptions
    are the subclasses of [Exception]; they are identified by their message
    [str(e)], the only thing the script reads from them.  The file system is
    a snapshot that does not change during a run. *)

From Stdlib Require Import ZArith NArith Ascii String List Bool Lia.
From stdpp Require Import base option list gmap strings pretty.

Set Warnings "-register-all".
Local Open Scope string_scope.
Local Open Scope Z_scope.
Local Open Scope list_scope.

(** ** Python values *)

Module Py.

(** Scalars handed over by the external library.  A float is identified by
    its [repr], which Python guarantees to round-trip; [AObject] is any other
    object, of class [cls], printing as [repr] and unknown to [json]. *)
Inductive atom : Type :=
  | ANone
  | ABool (b : bool)
  | AInt (z : Z)
  | AFloat (repr : string)
  | AStr (s : string)
  | AObject (cls repr : string).

(** Values the script builds itself: scalars, lists and dictionaries with
    string keys.  A dictionary keeps its keys in insertion order. *)
Inductive value : Type :=
  | VAtom (a : atom)
  | VList (l : list value)
  | VDict (d : list (string * value)).

Definition dict : Type := list (string * value).

Definition VNone : value := VAtom ANone.
Definition VBool (b : bool) : value := VAtom (ABool b).
Definition VInt (z : Z) : value := VAtom (AInt z).
Definition VFloat (r : string) : value := VAtom (AFloat r).
Definition VStr (s : string) : value := VAtom (AStr s).

(** [str(x)] on a scalar. *)
Definition str (a : atom) : string :=
  match a with
  | ANone => "None"
  | ABool true => "True"
  | ABool false => "False"
  | AInt z => pretty z
  | AFloat r => r
  | AStr s => s
  | AObject _ r => r
  end.

(** Truth value of an object in a condition. *)
Definition truthy (v : value) : bool :=
  match v with
  | VAtom ANone => false
  | VAtom (ABool b) => b
  | VAtom (AInt z) => negb (z =? 0)
  | VAtom (AFloat r) => negb (String.eqb r "0.0" || String.eqb r "-0.0")
  | VAtom (AStr s) => negb (String.eqb s "")
  | VAtom (AObject _ _) => true
  | VList l => match l with [] => false | _ => true end
  | VDict d => match d with [] => false | _ => true end
  end.

(** [v == 'literal'] for a string literal. *)
Definition eq_str (v : value) (lit : string) : bool :=
  match v with
  | VAtom (AStr s) => String.eqb s lit
  | _ => false
  end.

(** *** Dictionaries *)

Fixpoint dict_get (k : string) (d : dict) : option value :=
  match d with
  | [] => None
  | (k', v) :: d' => if String.eqb k k' then Some v else dict_get k d'
  end.

(** [d[k] = v]: overwrite in place, or append a new key at the end. *)
Fixpoint dict_set (k : string) (v : value) (d : dict) : dict :=
  match d with
  | [] => [(k, v)]
  | (k', v') :: d' =>
      if String.eqb k k' then (k', v) :: d' else (k', v') :: dict_set k v d'
  end.

(** [d.update(e)] *)
Definition dict_update (e d : dict) : dict :=
  fold_left (fun acc kv => dict_set (fst kv) (snd kv) acc) e d.

(** [d.get(k, default)] *)
Definition dict_get_default (k : string) (dflt : value) (d : dict) : value :=
  match dict_get k d with
  | Some v => v
  | None => dflt
  end.

Definition keys (d : dict) : list string := map fst d.

(** [d[k].append(x)] for a list stored under [k]. *)
Definition dict_append (k : string) (x : value) (d : dict) : dict :=
  match dict_get k d with
  | Some (VList l) => dict_set k (VList (l ++ [x])) d
  | _ => d
  end.

(** [d[k].update(e)] for a dictionary stored under [k]. *)
Definition dict_update_in (k : string) (e : dict) (d : dict) : dict :=
  match dict_get k d with
  | Some (VDict inner) => dict_set k (VDict (dict_update e inner)) d
  | _ => d
  end.

(** [d[k][k'] = v] for a dictionary stored under [k]. *)
Definition dict_set_in (k k' : string) (v : value) (d : dict) : dict :=
  match dict_get k d with
  | Some (VDict inner) => dict_set k (VDict (dict_set k' v inner)) d
  | _ => d
  end.

(** *** Strings *)

Definition lower_ascii (c : ascii) : ascii :=
  let n := N_of_ascii c in
  if ((65 <=? n) && (n <=? 90))%N then ascii_of_N (n + 32) else c.

(** [s.lower()].  Only ASCII letters are folded: the tags searched for below
    are ASCII, and the two non-ASCII characters whose lower case contains an
    ASCII letter (U+0130, U+212A) cannot complete any of them. *)
Fixpoint lower (s : string) : string :=
  match s with
  | EmptyString => EmptyString
  | String c s' => String (lower_ascii c) (lower s')
  end.

(** [needle in hay] *)
Fixpoint contains (needle hay : string) : bool :=
  String.prefix needle hay ||
  match hay with
  | EmptyString => false
  | String _ hay' => contains needle hay'
  end.

(** *** json *)

(** [json.dumps] accepts everything but foreign objects; [first_foreign]
    finds the class named in its [TypeError], if any. *)
Fixpoint first_foreign (v : value) : option string :=
  match v with
  | VAtom (AObject cls _) => Some cls
  | VAtom _ => None
  | VList l =>
      (fix go (l : list value) : option string :=
         match l with
         | [] => None
         | x :: l' => match first_foreign x with Some c => Some c | None => go l' end
         end) l
  | VDict d =>
      (fix go (d : list (string * value)) : option string :=
         match d with
         | [] => None
         | kv :: d' =>
             match first_foreign (snd kv) with Some c => Some c | None => go d' end
         end) d
  end.

End Py.

(** [base64.b64encode(data).decode('utf-8')] *)
Module Base64.

Definition alphabet : string :=
  "ABCDEFGHIJKLMNOPQRSTUVWXYZabcdefghijklmnopqrstuvwxyz0123456789+/".

Definition sextet (n : N) : ascii :=
  match String.get (N.to_nat (n mod 64)) alphabet with
  | Some c => c
  | None => "="%char
  end.

Fixpoint b64encode (data : string) : string :=
  match data with
  | EmptyString => EmptyString
  | String a EmptyString =>
      let n := (N_of_ascii a * 65536)%N in
      String (sextet (n / 262144)) (String (sextet (n / 4096)) "==")
  | String a (String b EmptyString) =>
      let n := (N_of_ascii a * 65536 + N_of_ascii b * 256)%N in
      String (sextet (n / 262144))
        (String (sextet (n / 4096)) (String (sextet (n / 64)) "="))
  | String a (String b (String c rest)) =>
      let n := (N_of_ascii a * 65536 + N_of_ascii b * 256 + N_of_ascii c)%N in
      String (sextet (n / 262144))
        (String (sextet (n / 4096))
           (String (sextet (n / 64)) (String (sextet n) (b64encode rest))))
  end.

End Base64.

(** ** The external library, as the script observes it *)

Module Docling.

(** Outcome of a call into the library: a value, or an exception carrying
    the message [str(e)]. *)
Inductive pyres (A : Type) : Type :=
  | Ok (a : A)
  | Raise (msg : string).
Arguments Ok {A} a.
Arguments Raise {A} msg.

(** An attribute the script probes with [hasattr]: not there, there, or a
    property whose getter raises something other than [AttributeError]
    (which [hasattr] lets through). *)
Inductive attr (A : Type) : Type :=
  | Missing
  | Has (a : A)
  | Faulty (msg : string).
Arguments Missing {A}.
Arguments Has {A} a.
Arguments Faulty {A} msg.

(** Something the script iterates over with [for]. *)
Inductive pyiter (A : Type) : Type :=
  | Items (l : list A)
  | NotIterable (msg : string).
Arguments Items {A} l.
Arguments NotIterable {A} msg.

(** [result.metadata]: an object with a [get(key, default)], or one whose
    [get] raises. *)
Inductive mapping : Type :=
  | DictLike (m : gmap string Py.value)
  | NoGet (msg : string).

Record Table := {
  table_header : attr (pyiter Py.atom);
  table_rows : attr (pyiter (pyiter Py.atom));
  table_caption : attr Py.atom
}.

(** [figure.image]: a [PIL.Image.Image], whose [save(buffer, format='PNG')]
    yields bytes or raises, or anything else. *)
Inductive image : Type :=
  | PILImage (save_png : pyres string)
  | OtherImage.

Record Figure := {
  figure_caption : attr Py.atom;
  figure_image : attr image
}.

(** The four coordinates are read without a probe. *)
Record BBox := {
  bbox_x : pyres Py.value;
  bbox_y : pyres Py.value;
  bbox_width : pyres Py.value;
  bbox_height : pyres Py.value
}.

(** [element_level] holds the outcome of [int(element.level)]. *)
Record Element := {
  element_type : attr Py.atom;
  element_level : attr (pyres Z);
  element_text : attr Py.atom;
  element_content : attr Py.atom;
  element_bbox : attr BBox;
  element_page : attr Py.value
}.

Record Document := {
  to_markdown : pyres string;
  to_text : pyres string;
  metadata : attr mapping;
  tables : attr (pyiter Table);
  figures : attr (pyiter Figure);
  layout : attr (pyiter Element)
}.

(** What [convert] returns: [isinstance(result, Document)] or not. *)
Inductive ConvResult : Type :=
  | IsDocument (d : Document)
  | NotDocument.

Record PipelineOptions := {
  table_extraction : bool;
  table_structure_recognition : bool;
  figure_extraction : bool;
  equation_extraction : bool;
  layout_preservation : bool
}.

(** [DocumentConverter(...).convert], applied to the path string. *)
Definition DocumentConverter : Type := string -> pyres ConvResult.

End Docling.

(** ** Effects of a run *)

Module Run.
Import Docling.

Inductive level : Type := INFO | WARNING | ERROR.

(** What reaches standard output or the output file: a JSON document
    ([indent] as given to [json.dump]) or the argument of [print]/[write]. *)
Inductive payload : Type :=
  | PJson (indent : option nat) (doc : Py.value)
  | PText (v : Py.value).

Inductive event : Type :=
  | Log (lvl : level) (msg : string)
  | Convert (path : string)
  | Print (p : payload)
  | Open (path : string)
  | Write (path : string) (p : payload).

(** How a computation ends: normally, with an exception on its way up, or
    with [sys.exit(code)], which [except Exception] does not stop. *)
Inductive outcome (A : Type) : Type :=
  | Done (a : A)
  | Raised (msg : string)
  | Exited (code : Z).
Arguments Done {A} a.
Arguments Raised {A} msg.
Arguments Exited {A} code.

(** The events so far, and the outcome. *)
Definition M (A : Type) : Type := list event * outcome A.

Definition ret {A} (a : A) : M A := ([], Done a).

Definition bind {A B} (m : M A) (k : A -> M B) : M B :=
  match m with
  | (es, Done a) => let '(es', o) := k a in (es ++ es', o)
  | (es, Raised msg) => (es, Raised msg)
  | (es, Exited c) => (es, Exited c)
  end.

Notation "'let*' x ':=' m 'in' k" := (bind m (fun x => k))
  (at level 10, x pattern, m at level 100, k at level 200).
Notation "m ';;;' k" := (bind m (fun _ => k))
  (at level 100, k at level 200, right associativity).

Definition emit (e : event) : M unit := ([e], Done tt).
Definition raise {A} (msg : string) : M A := ([], Raised msg).
Definition sys_exit {A} (code : Z) : M A := ([], Exited code).

Definition lift {A} (r : pyres A) : M A :=
  match r with
  | Ok a => ret a
  | Raise msg => raise msg
  end.

(** [try: m  except Exception as e: handler(e)] *)
Definition try_except {A} (m : M A) (handler : string -> M A) : M A :=
  match m with
  | (es, Raised msg) => let '(es', o) := handler msg in (es ++ es', o)
  | _ => m
  end.

(** [for x in l: s = body(x, s)] *)
Fixpoint for_each {A S} (l : list A) (body : A -> S -> M S) (s : S) : M S :=
  match l with
  | [] => ret s
  | x :: l' => let* s' := body x s in for_each l' body s'
  end.

(** [[f(x) for x in l]] for a pure [f], raising where [l] is not iterable. *)
Definition comprehension {A B} (f : A -> B) (it : pyiter A) : M (list B) :=
  match it with
  | Items l => ret (map f l)
  | NotIterable msg => raise msg
  end.

Definition iterate {A} (it : pyiter A) : M (list A) :=
  match it with
  | Items l => ret l
  | NotIterable msg => raise msg
  end.

(** [if hasattr(obj, name): s = body(obj.name, s)] *)
Definition if_hasattr {A S} (a : attr A) (body : A -> S -> M S) (s : S) : M S :=
  match a with
  | Missing => ret s
  | Has v => body v s
  | Faulty msg => raise msg
  end.

Definition events {A} (m : M A) : list event := fst m.
Definition result {A} (m : M A) : outcome A := snd m.

(** Events that put nothing on standard output or in a file. *)
Definition silent (e : event) : Prop :=
  match e with
  | Log _ _ | Convert _ => True
  | _ => False
  end.

(** A computation that only logs or converts, and never leaves the process. *)
Definition quiet {A} (m : M A) : Prop :=
  Forall silent (events m) /\ forall c, result m <> Exited c.

(** What an event prints or writes, if anything. *)
Definition payload_of (e : event) : option payload :=
  match e with
  | Print p | Write _ p => Some p
  | _ => None
  end.

End Run.

(** ** The script *)

Module Wrapper.
Import Py Docling Run.

(** A [pathlib.Path]: [str(path)] and [path.name]. *)
Record Path := { path_text : string; path_name : string }.

(** Everything outside the script that a run depends on. *)
Record World := {
  (** [Path(s)] *)
  pathlib : string -> Path;
  (** [path.stat().st_size], [None] where no such file exists *)
  fs_size : Path -> option Z;
  (** [PipelineOptions()] *)
  pipeline_defaults : PipelineOptions;
  (** [DocumentConverter(pipeline_options=..., logging_level=...)] *)
  new_converter : PipelineOptions -> pyres DocumentConverter;
  (** [from PIL import Image] *)
  import_pil : pyres unit;
  (** [open(path, 'w', encoding='utf-8')] *)
  open_w : Path -> pyres unit
}.

Definition path_exists (w : World) (p : Path) : bool :=
  match fs_size w p with Some _ => true | None => false end.

Definition stat_size (w : World) (p : Path) : pyres Z :=
  match fs_size w p with
  | Some n => Ok n
  | None =>
      Raise ("[Errno 2] No such file or directory: '" +:+ path_text p +:+ "'")
  end.

Record DoclingProcessor := { converter : option DocumentConverter }.

(** [DoclingProcessor()] *)
Definition new_processor : DoclingProcessor := {| converter := None |}.

(** [options.get(key, default)] read as a condition *)
Definition option_on (options : gmap string value) (key : string) (dflt : bool) : bool :=
  match options !! key with
  | Some v => truthy v
  | None => dflt
  end.

Definition configure (options : gmap string value) (p : PipelineOptions) : PipelineOptions :=
  let p :=
    if option_on options "extract_tables" true
    then {| table_extraction := true;
            table_structure_recognition := true;
            figure_extraction := figure_extraction p;
            equation_extraction := equation_extraction p;
            layout_preservation := layout_preservation p |}
    else p in
  let p :=
    if option_on options "extract_figures" true
    then {| table_extraction := table_extraction p;
            table_structure_recognition := table_structure_recognition p;
            figure_extraction := true;
            equation_extraction := equation_extraction p;
            layout_preservation := layout_preservation p |}
    else p in
  let p :=
    if option_on options "extract_equations" false
    then {| table_extraction := table_extraction p;
            table_structure_recognition := table_structure_recognition p;
            figure_extraction := figure_extraction p;
            equation_extraction := true;
            layout_preservation := layout_preservation p |}
    else p in
  if option_on options "preserve_layout" true
  then {| table_extraction := table_extraction p;
          table_structure_recognition := table_structure_recognition p;
          figure_extraction := figure_extraction p;
          equation_extraction := equation_extraction p;
          layout_preservation := true |}
  else p.

Definition initialize_converter (w : World) (self : DoclingProcessor)
    (options : gmap string value) : M DoclingProcessor :=
  let pipeline_options := configure options (pipeline_defaults w) in
  let* c := lift (new_converter w pipeline_options) in
  ret {| converter := Some c |}.

(** The [except] branch of [process_document] (lines 237-243). *)
Definition failure (options : gmap string value) (e : string) : dict :=
  [ ("success", VBool false);
    ("error", VStr e);
    ("format", default (VStr "json") (options !! "output_format")) ].

(** [metadata.get(key, default)] *)
Definition mapping_get (md : mapping) (key : string) (dflt : value) : M value :=
  match md with
  | DictLike m => ret (default dflt (m !! key))
  | NoGet msg => raise msg
  end.

(** [[str(cell) for cell in cells]] *)
Definition str_cells (cells : pyiter atom) : M value :=
  let* l := comprehension (fun cell => VStr (str cell)) cells in
  ret (VList l).

(** The [table_data] built for one table (lines 131-149). *)
Definition table_data (table : Table) : M dict :=
  let table_data :=
    [ ("headers", VList []);
      ("rows", VList []);
      ("caption", VStr "");
      ("confidence", VFloat "0.979") ] in
  let* table_data :=
    if_hasattr (table_header table) (fun header td =>
      let* headers := str_cells header in
      ret (dict_set "headers" headers td)) table_data in
  let* table_data :=
    if_hasattr (table_rows table) (fun rows td =>
      let* rs := iterate rows in
      for_each rs (fun row td =>
        let* cells := str_cells row in
        ret (dict_append "rows" cells td)) td) table_data in
  if_hasattr (table_caption table) (fun caption td =>
    ret (dict_set "caption" (VStr (str caption)) td)) table_data.

(** Body of the loop over [result.tables] (lines 130-151). *)
Definition flatten_table (table : Table) (output : dict) : M dict :=
  let* td := table_data table in
  ret (dict_append "tables" (VDict td) output).

(** The guarded block of lines 170-177. *)
Definition encode_image (w : World) (img : image) (figure_data : dict) : M dict :=
  lift (import_pil w) ;;;
  match img with
  | PILImage save_png =>
      let* png := lift save_png in
      ret (dict_set "base64" (VStr (Base64.b64encode png)) figure_data)
  | OtherImage => ret figure_data
  end.

(** The [figure_data] built for one figure (lines 156-179). *)
Definition figure_data (w : World) (figure : Figure) : M dict :=
  let figure_data :=
    [ ("caption", VStr ""); ("type", VStr "figure"); ("base64", VNone) ] in
  let* figure_data :=
    if_hasattr (figure_caption figure) (fun caption fd =>
      ret (dict_set "caption" (VStr (str caption)) fd)) figure_data in
  if_hasattr (figure_image figure) (fun img fd =>
    try_except (encode_image w img fd) (fun e =>
      emit (Log WARNING ("Could not extract figure image: " +:+ e)) ;;;
      ret fd)) figure_data.

(** Body of the loop over [result.figures] (lines 155-181). *)
Definition flatten_figure (w : World) (figure : Figure) (output : dict) : M dict :=
  let* fd := figure_data w figure in
  ret (dict_append "figures" (VDict fd) output).

(** The [if]/[elif] chain of lines 196-212 on the lowered type string. *)
Definition classify (element : Element) (element_type : string)
    (layout_element : dict) : M dict :=
  if contains "header" element_type || contains "heading" element_type then
    let layout_element := dict_set "type" (VStr "header") layout_element in
    if_hasattr (element_level element) (fun lvl le =>
      let* n := lift lvl in
      ret (dict_set "level" (VInt n) le)) layout_element
  else if contains "table" element_type then
    ret (dict_set "type" (VStr "table") layout_element)
  else if contains "figure" element_type || contains "image" element_type then
    ret (dict_set "type" (VStr "figure") layout_element)
  else if contains "list" element_type then
    ret (dict_set "type" (VStr "list") layout_element)
  else if contains "code" element_type then
    ret (dict_set "type" (VStr "code") layout_element)
  else if contains "footer" element_type then
    ret (dict_set "type" (VStr "footer") layout_element)
  else if contains "caption" element_type then
    ret (dict_set "type" (VStr "caption") layout_element)
  else ret layout_element.

(** [{'x': element.bbox.x, ...}] *)
Definition bbox_dict (b : BBox) : M value :=
  let* x := lift (bbox_x b) in
  let* y := lift (bbox_y b) in
  let* width := lift (bbox_width b) in
  let* height := lift (bbox_height b) in
  ret (VDict [("x", x); ("y", y); ("width", width); ("height", height)]).

(** The [layout_element] built for one element (lines 186-231). *)
Definition layout_element (element : Element) : M dict :=
  let layout_element :=
    [ ("type", VStr "paragraph");
      ("content", VStr "");
      ("level", VNone);
      ("metadata", VDict []) ] in
  let* layout_element :=
    if_hasattr (element_type element) (fun ty le =>
      classify element (lower (str ty)) le) layout_element in
  let* layout_element :=
    match element_text element with
    | Has text => ret (dict_set "content" (VStr (str text)) layout_element)
    | Faulty msg => raise msg
    | Missing =>
        if_hasattr (element_content element) (fun content le =>
          ret (dict_set "content" (VStr (str content)) le)) layout_element
    end in
  let* layout_element :=
    if_hasattr (element_bbox element) (fun b le =>
      let* box := bbox_dict b in
      ret (dict_set_in "metadata" "bbox" box le)) layout_element in
  if_hasattr (element_page element) (fun page le =>
    ret (dict_set_in "metadata" "page" page le)) layout_element.

(** Body of the loop over [result.layout] (lines 185-233). *)
Definition flatten_element (element : Element) (output : dict) : M dict :=
  let* le := layout_element element in
  ret (dict_append "layout" (VDict le) output).

(** [options['output_format']] *)
Definition output_format_of (options : gmap string value) : M value :=
  match options !! "output_format" with
  | Some v => ret v
  | None => raise "'output_format'"
  end.

(** Lines 111-233: the branch taken when [result] is a [Document]. *)
Definition flatten_document (w : World) (options : gmap string value)
    (d : Document) (output : dict) : M dict :=
  let* fmt := output_format_of options in
  let* content :=
    if eq_str fmt "markdown" then lift (to_markdown d)
    else if eq_str fmt "text" then lift (to_text d)
    else lift (to_text d) in
  let output := dict_set "content" (VStr content) output in
  let* output :=
    if_hasattr (metadata d) (fun md out =>
      let* title := mapping_get md "title" (VStr "") in
      let* author := mapping_get md "author" (VStr "") in
      let* pages := mapping_get md "page_count" (VInt 0) in
      ret (dict_update_in "metadata"
             [("title", title); ("author", author); ("pages", pages)] out))
      output in
  let* output :=
    if option_on options "extract_tables" true then
      if_hasattr (tables d) (fun ts out =>
        let* l := iterate ts in for_each l flatten_table out) output
    else ret output in
  let* output :=
    if option_on options "extract_figures" true then
      if_hasattr (figures d) (fun fs out =>
        let* l := iterate fs in for_each l (flatten_figure w) out) output
    else ret output in
  if option_on options "preserve_layout" true then
    if_hasattr (layout d) (fun els out =>
      let* l := iterate els in for_each l flatten_element out) output
  else ret output.

(** Lines 95-235: from the converter's result to the output dictionary. *)
Definition flatten (w : World) (input_path : Path) (options : gmap string value)
    (result : ConvResult) : M dict :=
  let fmt := default (VStr "json") (options !! "output_format") in
  let* file_size := lift (stat_size w input_path) in
  let output :=
    [ ("success", VBool true);
      ("format", fmt);
      ("metadata",
        VDict [ ("filename", VStr (path_name input_path));
                ("file_size", VInt file_size);
                ("pages", VInt 0) ]);
      ("content", VStr "");
      ("tables", VList []);
      ("figures", VList []);
      ("layout", VList []) ] in
  match result with
  | IsDocument d => flatten_document w options d output
  | NotDocument => ret output
  end.

(** [self.converter.convert(str(input_path))] *)
Definition convert (self : DoclingProcessor) (input_path : Path) : M ConvResult :=
  match converter self with
  | Some c => emit (Convert (path_text input_path)) ;;; lift (c (path_text input_path))
  | None => raise "'NoneType' object has no attribute 'convert'"
  end.

Definition process_document (w : World) (self : DoclingProcessor)
    (input_path : Path) (options : gmap string value)
    : M (DoclingProcessor * dict) :=
  let* self :=
    match converter self with
    | None => initialize_converter w self options
    | Some _ => ret self
    end in
  let* output :=
    try_except
      (emit (Log INFO ("Processing document: " +:+ path_text input_path)) ;;;
       let* result := convert self input_path in
       flatten w input_path options result)
      (fun e =>
         emit (Log ERROR ("Error processing document: " +:+ e)) ;;;
         ret (failure options e)) in
  ret (self, output).

(** *** Command line *)

Inductive Format : Type := text | markdown | json.

Definition format_name (f : Format) : string :=
  match f with
  | text => "text"
  | markdown => "markdown"
  | json => "json"
  end.

(** The namespace returned by [parser.parse_args()]. *)
Record Args := {
  input_file : string;
  output_format : Format;
  preserve_layout : bool;
  extract_tables : bool;
  extract_figures : bool;
  extract_equations : bool;
  output_file : option string
}.

(** The [options] dictionary of lines 272-278. *)
Definition cli_options (args : Args) : gmap string value :=
  <["output_format" := VStr (format_name (output_format args))]>
  (<["preserve_layout" := VBool (preserve_layout args)]>
  (<["extract_tables" := VBool (extract_tables args)]>
  (<["extract_figures" := VBool (extract_figures args)]>
  (<["extract_equations" := VBool (extract_equations args)]> ∅)))).

(** [json.dumps(result, ...)] *)
Definition json_dumps (v : value) : M value :=
  match first_foreign v with
  | Some cls => raise ("Object of type " +:+ cls +:+ " is not JSON serializable")
  | None => ret v
  end.

Definition is_json (f : Format) : bool :=
  match f with json => true | _ => false end.

(** Lines 285-298.  In the file branch, [Open] marks the moment the output
    file is created or truncated; [Write] stands for the completed write.
    Writing to standard output is taken to succeed. *)
Definition write_output (w : World) (args : Args) (result : dict) : M unit :=
  match output_file args with
  | Some (String c f) =>
      let output_path := pathlib w (String c f) in
      lift (open_w w output_path) ;;;
      emit (Open (path_text output_path)) ;;;
      (if is_json (output_format args) then
         let* doc := json_dumps (VDict result) in
         emit (Write (path_text output_path) (PJson (Some 2%nat) doc))
       else
         match dict_get_default "content" (VStr "") result with
         | VAtom (AStr s) => emit (Write (path_text output_path) (PText (VStr s)))
         | _ => raise "write() argument must be str"
         end) ;;;
      emit (Log INFO ("Output written to: " +:+ path_text output_path))
  | _ =>
      if is_json (output_format args) then
        let* doc := json_dumps (VDict result) in
        emit (Print (PJson None doc))
      else emit (Print (PText (dict_get_default "content" (VStr "") result)))
  end.

Definition main (w : World) (args : Args) : M Z :=
  let input_path := pathlib w (input_file args) in
  if negb (path_exists w input_path) then
    emit (Log ERROR ("Input file not found: " +:+ path_text input_path)) ;;;
    sys_exit 1
  else
    let options := cli_options args in
    let processor := new_processor in
    let* run := process_document w processor input_path options in
    let result := snd run in
    write_output w args result ;;;
    ret (if truthy (dict_get_default "success" (VBool false) result) then 0 else 1).

(** Exit status of [sys.exit(main())]: the returned code, the code given to
    [sys.exit], or 1 after an uncaught exception. *)
Definition exit_status (m : M Z) : Z :=
  match result m with
  | Done code => code
  | Raised _ => 1
  | Exited code => code
  end.



End Wrapper.

(** * Properties *)

(** ** Vocabulary of the statements *)

Module Shape.
Import Py Docling Run Wrapper.

(** A successful output, by its seven entries. *)
Definition skeleton (fmt : value) (meta : dict) (content : string)
    (ts fs ls : list value) : dict :=
  [ ("success", VBool true);
    ("format", fmt);
    ("metadata", VDict meta);
    ("content", VStr content);
    ("tables", VList ts);
    ("figures", VList fs);
    ("layout", VList ls) ].

Definition success_keys : list string :=
  ["success"; "format"; "metadata"; "content"; "tables"; "figures"; "layout"].

Definition failure_keys : list string := ["success"; "error"; "format"].

Definition payload_keys : list string :=
  ["metadata"; "content"; "tables"; "figures"; "layout"].

(** The metadata taken from the file system alone. *)
Definition base_meta (p : Path) (size : Z) : dict :=
  [ ("filename", VStr (path_name p));
    ("file_size", VInt size);
    ("pages", VInt 0) ].

(** [options.get('output_format', 'json')] *)
Definition format_of (options : gmap string value) : value :=
  default (VStr "json") (options !! "output_format").

(** The text chosen by lines 113-118. *)
Definition content_of (options : gmap string value) (d : Document) (c : string) : Prop :=
  exists fmt, options !! "output_format" = Some fmt /\
    (if eq_str fmt "markdown" then to_markdown d else to_text d) = Ok c.

(** The metadata dictionary after lines 121-126. *)
Definition metadata_of (d : Document) (meta0 md : dict) : Prop :=
  match metadata d with
  | Missing => md = meta0
  | Has (DictLike m) =>
      md = dict_update
             [ ("title", default (VStr "") (m !! "title"));
               ("author", default (VStr "") (m !! "author"));
               ("pages", default (VInt 0) (m !! "page_count")) ] meta0
  | _ => False
  end.

(** What one of the three guarded loops leaves in its list: nothing when
    the flag is off or the attribute is missing, else one record per item. *)
Definition collected {A} (on : bool) (a : attr (pyiter A)) (f : A -> M dict)
    (vs : list value) : Prop :=
  if on then
    match a with
    | Missing => vs = []
    | Has (Items l) =>
        exists rs, Forall2 (fun x r => result (f x) = Done r) l rs /\ vs = map VDict rs
    | _ => False
    end
  else vs = [].

(** The converter used by [process_document]: the one already there, or a
    new one built from the options. *)
Definition converter_of (w : World) (self : DoclingProcessor)
    (options : gmap string value) : pyres DocumentConverter :=
  match converter self with
  | Some c => Ok c
  | None => new_converter w (configure options (pipeline_defaults w))
  end.

(** The call made by [main] at line 282. *)
Definition cli_run (w : World) (args : Args) : M (DoclingProcessor * dict) :=
  process_document w new_processor (pathlib w (input_file args)) (cli_options args).

(** The dictionary that call returns, if it returns. *)
Definition cli_result (w : World) (args : Args) : option dict :=
  match result (cli_run w args) with
  | Done run => Some (snd run)
  | _ => None
  end.

(** One entry of that dictionary. *)
Definition result_entry (w : World) (args : Args) (k : string) : option value :=
  match cli_result w args with
  | Some r => dict_get k r
  | None => None
  end.

(** What [write_output] prints or writes: the result as JSON when the
    format is [json], and the [content] entry otherwise. *)
Definition emitted_from (args : Args) (r : dict) (p : payload) : Prop :=
  if is_json (output_format args)
  then exists indent, p = PJson indent (VDict r)
  else p = PText (dict_get_default "content" (VStr "") r).

(** The same command line with another [--extract-equations]. *)
Definition with_equations (b : bool) (args : Args) : Args :=
  {| input_file := input_file args;
     output_format := output_format args;
     preserve_layout := preserve_layout args;
     extract_tables := extract_tables args;
     extract_figures := extract_figures args;
     extract_equations := b;
     output_file := output_file args |}.

(** *** Layout tags, in the words of the specification

    Case-insensitive substring match against the reported type string, in
    the precedence order header/heading, table, figure/image, list, code,
    footer, caption; paragraph otherwise. *)
Definition precedence : list (list string * string) :=
  [ (["header"; "heading"], "header");
    (["table"], "table");
    (["figure"; "image"], "figure");
    (["list"], "list");
    (["code"], "code");
    (["footer"], "footer");
    (["caption"], "caption") ].

Fixpoint first_match (table : list (list string * string)) (s : string) : string :=
  match table with
  | [] => "paragraph"
  | (words, tag) :: rest =>
      if existsb (fun word => contains word s) words then tag
      else first_match rest s
  end.

Definition type_tag (reported : string) : string :=
  first_match precedence (lower reported).

Definition element_tag (e : Element) : string :=
  match element_type e with
  | Has t => type_tag (str t)
  | _ => "paragraph"
  end.

(** The level of a layout record: the integer level of the element when the
    record is a header and the element exposes a level, [None] otherwise. *)
Definition level_of (e : Element) : value :=
  if String.eqb (element_tag e) "header" then
    match element_level e with
    | Has (Ok n) => VInt n
    | _ => VNone
    end
  else VNone.

(** *** Figures *)

(** The caption of a figure record; none where reading it raises. *)
Definition caption_text (f : Figure) : option string :=
  match figure_caption f with
  | Missing => Some ""
  | Has c => Some (str c)
  | Faulty _ => None
  end.

(** The exception raised inside the guarded encoding block, if any. *)
Definition image_failure (w : World) (f : Figure) : option string :=
  match figure_image f with
  | Has img =>
      match import_pil w with
      | Raise e => Some e
      | Ok _ => match img with PILImage (Raise e) => Some e | _ => None end
      end
  | _ => None
  end.

(** A figure with nothing to encode: no [image] attribute, or one that is
    not a PIL image. *)
Definition no_payload (f : Figure) : Prop :=
  figure_image f = Missing \/ figure_image f = Has OtherImage.

End Shape.

(** ** Concrete runs *)

Module Examples.
Import Py Docling Run Wrapper Shape.

Definition plain_path (s : string) : Path := {| path_text := s; path_name := s |}.

Definition no_pipeline : PipelineOptions :=
  {| table_extraction := false;
     table_structure_recognition := false;
     figure_extraction := false;
     equation_extraction := false;
     layout_preservation := false |}.

(** A world with one input file, [report.pdf] of 2048 bytes, and the given
    converter; [writable] tells whether output files can be opened. *)
Definition world (conv : DocumentConverter) (writable : bool) : World :=
  {| pathlib := plain_path;
     fs_size := fun p => if String.eqb (path_text p) "report.pdf" then Some 2048 else None;
     pipeline_defaults := no_pipeline;
     new_converter := fun _ => Ok conv;
     import_pil := Ok tt;
     open_w := fun p =>
       if writable then Ok tt
       else Raise ("[Errno 2] No such file or directory: '" +:+ path_text p +:+ "'") |}.

Definition args_json : Args :=
  {| input_file := "report.pdf";
     output_format := json;
     preserve_layout := false;
     extract_tables := false;
     extract_figures := false;
     extract_equations := false;
     output_file := None |}.

Definition args_all : Args :=
  {| input_file := "report.pdf";
     output_format := json;
     preserve_layout := true;
     extract_tables := true;
     extract_figures := true;
     extract_equations := false;
     output_file := None |}.

Definition args_markdown : Args :=
  {| input_file := "report.pdf";
     output_format := markdown;
     preserve_layout := false;
     extract_tables := false;
     extract_figures := false;
     extract_equations := false;
     output_file := None |}.


Definition element_of_type (ty : string) : Element :=
  {| element_type := Has (AStr ty);
     element_level := Missing;
     element_text := Has (AStr "text");
     element_content := Missing;
     element_bbox := Missing;
     element_page := Missing |}.

Definition eight_types : list string :=
  ["Heading-1"; "Table"; "Image"; "ListItem"; "CodeBlock"; "Footer"; "Caption";
   "Paragraph"].

Definition a_table : Table :=
  {| table_header := Has (Items [AStr "name"; AStr "qty"]);
     table_rows := Has (Items [Items [AStr "bolt"; AInt 4]]);
     table_caption := Has (AStr "Parts") |}.

Definition broken_figure : Figure :=
  {| figure_caption := Has (AStr "Figure 1");
     figure_image := Has (PILImage (Raise "cannot write mode F as PNG")) |}.

Definition bare_figure : Figure :=
  {| figure_caption := Has (AStr "Figure 2"); figure_image := Missing |}.

(** A document with a table, two figures and eight layout elements, and no
    [metadata] attribute. *)
Definition rich_document : Document :=
  {| to_markdown := Ok "# Report";
     to_text := Ok "Report";
     metadata := Missing;
     tables := Has (Items [a_table]);
     figures := Has (Items [broken_figure; bare_figure]);
     layout := Has (Items (map element_of_type eight_types)) |}.

Definition titled_document : Document :=
  {| to_markdown := Ok "# Report";
     to_text := Ok "Report";
     metadata := Has (DictLike (<["title" := VStr "Annual report"]> ∅));
     tables := Missing;
     figures := Missing;
     layout := Missing |}.

Definition element_with_level (ty : string) (n : Z) : Element :=
  {| element_type := Has (AStr ty);
     element_level := Has (Ok n);
     element_text := Has (AStr "text");
     element_content := Missing;
     element_bbox := Missing;
     element_page := Missing |}.

(** Elements of the eight reported types, each exposing a level. *)
Definition leveled_elements : list Element :=
  [ element_with_level "Heading-1" 1; element_with_level "Table" 2;
    element_with_level "Image" 3; element_with_level "ListItem" 4;
    element_with_level "CodeBlock" 5; element_with_level "Footer" 6;
    element_with_level "Caption" 7; element_with_level "Paragraph" 8 ].

(** A document that exposes nothing but its layout. *)
Definition layout_document : Document :=
  {| to_markdown := Ok "# Report";
     to_text := Ok "Report";
     metadata := Missing;
     tables := Missing;
     figures := Missing;
     layout := Has (Items leveled_elements) |}.

Definition converts_to (d : Document) : DocumentConverter := fun _ => Ok (IsDocument d).
Definition returns_other : DocumentConverter := fun _ => Ok NotDocument.
Definition raises (msg : string) : DocumentConverter := fun _ => Raise msg.

(** What a run on [titled_document] in the json format returns. *)
Definition titled_output : dict :=
  [ ("success", VBool true);
    ("format", VStr "json");
    ("metadata",
      VDict [ ("filename", VStr "report.pdf");
              ("file_size", VInt 2048);
              ("pages", VInt 0);
              ("title", VStr "Annual report");
              ("author", VStr "") ]);
    ("content", VStr "Report");
    ("tables", VList []);
    ("figures", VList []);
    ("layout", VList []) ].

(** The output flattened from [layout_document] with every flag given. *)
Definition layout_output : dict :=
  match result (flatten (world (converts_to layout_document) true)
                  (plain_path "report.pdf") (cli_options args_all)
                  (IsDocument layout_document)) with
  | Done out => out
  | _ => []
  end.

End Examples.

(** ** The monad *)

Module RunFacts.
Import Docling Run.

Section Laws.
Context {A B : Type}.

Lemma result_bind (m : M A) (k : A -> M B) :
  result (bind m k) =
  match result m with
  | Done a => result (k a)
  | Raised msg => Raised msg
  | Exited c => Exited c
  end.
Proof.
  destruct m as [es [a | msg | c]]; simpl; try reflexivity.
  destruct (k a); reflexivity.
Qed.

Lemma events_bind (m : M A) (k : A -> M B) :
  events (bind m k) =
  match result m with
  | Done a => events m ++ events (k a)
  | _ => events m
  end.
Proof.
  destruct m as [es [a | msg | c]]; simpl; try reflexivity.
  destruct (k a); reflexivity.
Qed.

(** A sequence ends normally only if both halves do. *)
Lemma bind_done (m : M A) (k : A -> M B) (b : B) :
  result (bind m k) = Done b ->
  exists a, result m = Done a /\ result (k a) = Done b.
Proof.
  rewrite result_bind. destruct (result m) as [a | msg | c]; try discriminate.
  intros H. exists a. split; [reflexivity | exact H].
Qed.

End Laws.

Lemma lift_done {A} (r : pyres A) (a : A) : result (lift r) = Done a -> r = Ok a.
Proof. destruct r; simpl; congruence. Qed.

(** The result of a loop that appends one record per item under key [k]:
    one record per item, in the order of the items. *)
Lemma for_each_append_done {A} (f : A -> M Py.dict) (k : string) (l : list A) :
  forall (d out : Py.dict),
    result (for_each l (fun x o => let* r := f x in
                                   ret (Py.dict_append k (Py.VDict r) o)) d) = Done out ->
    exists rs,
      Forall2 (fun x r => result (f x) = Done r) l rs /\
      out = fold_left (fun o r => Py.dict_append k (Py.VDict r) o) rs d.
Proof.
  induction l as [| x l IH]; intros d out H.
  - simpl in H. injection H as <-. exists []. split; [constructor | reflexivity].
  - cbn [for_each] in H. apply bind_done in H as (d' & Hx & Hl).
    apply bind_done in Hx as (r & Hr & Hd'). simpl in Hd'. injection Hd' as <-.
    apply IH in Hl as (rs & Hrs & ->).
    exists (r :: rs). split; [constructor; assumption | reflexivity].
Qed.

(** *** Computations that only log or convert, and never leave the process *)

Lemma quiet_ret {A} (a : A) : quiet (ret a).
Proof. split; [constructor | discriminate]. Qed.

Lemma quiet_raise {A} (msg : string) : quiet (@raise A msg).
Proof. split; [constructor | discriminate]. Qed.

Lemma quiet_lift {A} (r : pyres A) : quiet (lift r).
Proof. destruct r; [apply quiet_ret | apply quiet_raise]. Qed.

Lemma quiet_log (lvl : level) (msg : string) : quiet (emit (Log lvl msg)).
Proof. split; [repeat constructor | discriminate]. Qed.

Lemma quiet_convert (p : string) : quiet (emit (Convert p)).
Proof. split; [repeat constructor | discriminate]. Qed.

Lemma quiet_bind {A B} (m : M A) (k : A -> M B) :
  quiet m -> (forall a, quiet (k a)) -> quiet (bind m k).
Proof.
  intros [Hm Xm] Hk. split.
  - rewrite events_bind. destruct (result m); try assumption.
    apply Forall_app. split; [assumption | apply Hk].
  - intros c. rewrite result_bind. destruct (result m) as [a | msg | c'] eqn:E.
    + apply Hk.
    + discriminate.
    + exfalso. exact (Xm c' eq_refl).
Qed.

Lemma quiet_try_except {A} (m : M A) (h : string -> M A) :
  quiet m -> (forall msg, quiet (h msg)) -> quiet (try_except m h).
Proof.
  intros [Hm Xm] Hh. destruct m as [es [a | msg | c]]; simpl in *.
  - split; [assumption | discriminate].
  - destruct (Hh msg) as [He Xe]. destruct (h msg) as [es' o]. simpl in *.
    split; [apply Forall_app; split; assumption | assumption].
  - split; assumption.
Qed.

Lemma quiet_for_each {A S} (l : list A) (body : A -> S -> M S) :
  (forall x s, quiet (body x s)) -> forall s, quiet (for_each l body s).
Proof.
  intros Hb. induction l as [| x l IH]; intros s; simpl.
  - apply quiet_ret.
  - apply quiet_bind; [apply Hb | apply IH].
Qed.

Lemma quiet_if_hasattr {A S} (a : attr A) (body : A -> S -> M S) (s : S) :
  (forall v, quiet (body v s)) -> quiet (if_hasattr a body s).
Proof.
  intros Hb. destruct a; simpl; [apply quiet_ret | apply Hb | apply quiet_raise].
Qed.

Lemma quiet_iterate {A} (it : pyiter A) : quiet (iterate it).
Proof. destruct it; [apply quiet_ret | apply quiet_raise]. Qed.

Lemma quiet_comprehension {A B} (f : A -> B) (it : pyiter A) :
  quiet (comprehension f it).
Proof. destruct it; [apply quiet_ret | apply quiet_raise]. Qed.

Create HintDb quiet.
#[export] Hint Resolve quiet_ret quiet_raise quiet_lift quiet_log quiet_convert
  quiet_iterate quiet_comprehension : quiet.

(** Steps through a computation built from the combinators above. *)
Ltac quiet_step :=
  match goal with
  | |- quiet (bind _ _) => apply quiet_bind; [| intros ?]
  | |- quiet (try_except _ _) => apply quiet_try_except; [| intros ?]
  | |- quiet (for_each _ _ _) => apply quiet_for_each; intros ? ?
  | |- quiet (if_hasattr _ _ _) => apply quiet_if_hasattr; intros ?
  | |- quiet (if ?c then _ else _) => destruct c
  | |- quiet (match ?x with _ => _ end) => destruct x
  | |- quiet _ => solve [auto with quiet]
  end.

End RunFacts.

(** ** The script *)

Module WrapperFacts.
Import Py Docling Run Wrapper Shape RunFacts.

Lemma quiet_table_data (t : Table) : quiet (table_data t).
Proof. unfold table_data, str_cells. repeat quiet_step. Qed.

Lemma quiet_encode_image (w : World) (img : image) (fd : dict) :
  quiet (encode_image w img fd).
Proof. unfold encode_image. repeat quiet_step. Qed.

Lemma quiet_figure_data (w : World) (f : Figure) : quiet (figure_data w f).
Proof.
  unfold figure_data. repeat quiet_step. apply quiet_encode_image.
Qed.

Lemma quiet_layout_element (e : Element) : quiet (layout_element e).
Proof. unfold layout_element, classify, bbox_dict. repeat quiet_step. Qed.

Lemma quiet_flatten (w : World) (p : Path) (options : gmap string value)
    (cr : ConvResult) : quiet (flatten w p options cr).
Proof.
  unfold flatten, flatten_document, output_format_of, mapping_get,
    flatten_table, flatten_figure, flatten_element.
  repeat quiet_step;
    first [apply quiet_table_data | apply quiet_figure_data | apply quiet_layout_element].
Qed.

Lemma quiet_process_document (w : World) (self : DoclingProcessor) (p : Path)
    (options : gmap string value) : quiet (process_document w self p options).
Proof.
  unfold process_document, initialize_converter, convert.
  repeat quiet_step. apply quiet_flatten.
Qed.


(** *** Shape of a successful output *)

Lemma fold_append_tables fmt meta c fs ls rs : forall ts,
  fold_left (fun o r => dict_append "tables" (VDict r) o) rs
    (skeleton fmt meta c ts fs ls)
  = skeleton fmt meta c (ts ++ map VDict rs) fs ls.
Proof.
  induction rs as [| r rs IH]; intros ts; simpl.
  - rewrite app_nil_r. reflexivity.
  - change (dict_append "tables" (VDict r) (skeleton fmt meta c ts fs ls))
      with (skeleton fmt meta c (ts ++ [VDict r]) fs ls).
    rewrite IH, <- app_assoc. reflexivity.
Qed.

Lemma fold_append_figures fmt meta c ts ls rs : forall fs,
  fold_left (fun o r => dict_append "figures" (VDict r) o) rs
    (skeleton fmt meta c ts fs ls)
  = skeleton fmt meta c ts (fs ++ map VDict rs) ls.
Proof.
  induction rs as [| r rs IH]; intros fs; simpl.
  - rewrite app_nil_r. reflexivity.
  - change (dict_append "figures" (VDict r) (skeleton fmt meta c ts fs ls))
      with (skeleton fmt meta c ts (fs ++ [VDict r]) ls).
    rewrite IH, <- app_assoc. reflexivity.
Qed.

Lemma fold_append_layout fmt meta c ts fs rs : forall ls,
  fold_left (fun o r => dict_append "layout" (VDict r) o) rs
    (skeleton fmt meta c ts fs ls)
  = skeleton fmt meta c ts fs (ls ++ map VDict rs).
Proof.
  induction rs as [| r rs IH]; intros ls; simpl.
  - rewrite app_nil_r. reflexivity.
  - change (dict_append "layout" (VDict r) (skeleton fmt meta c ts fs ls))
      with (skeleton fmt meta c ts fs (ls ++ [VDict r])).
    rewrite IH, <- app_assoc. reflexivity.
Qed.

Lemma flatten_document_done w options d fmt meta0 out :
  result (flatten_document w options d (skeleton fmt meta0 "" [] [] [])) = Done out ->
  exists c md ts fs ls,
    out = skeleton fmt md c ts fs ls /\
    content_of options d c /\
    metadata_of d meta0 md /\
    collected (option_on options "extract_tables" true) (tables d) table_data ts /\
    collected (option_on options "extract_figures" true) (figures d) (figure_data w) fs /\
    collected (option_on options "preserve_layout" true) (layout d) layout_element ls.
Proof.
  unfold flatten_document. intros H.
  apply bind_done in H as (fmtv & Hfmt & H).
  apply bind_done in H as (c & Hc & H).
  apply bind_done in H as (o1 & Hmeta & H).
  apply bind_done in H as (o2 & Htab & H).
  apply bind_done in H as (o3 & Hfig & Hlay).
  assert (Hcontent : content_of options d c).
  { exists fmtv. split.
    - unfold output_format_of in Hfmt. destruct (options !! "output_format"); simpl in Hfmt; congruence.
    - destruct (eq_str fmtv "markdown"); [apply lift_done; exact Hc |].
      destruct (eq_str fmtv "text"); apply lift_done; exact Hc. }
  change (dict_set "content" (VStr c) (skeleton fmt meta0 "" [] [] []))
    with (skeleton fmt meta0 c [] [] []) in Hmeta.
  assert (Hmd : exists md, o1 = skeleton fmt md c [] [] [] /\ metadata_of d meta0 md).
  { unfold metadata_of. destruct (metadata d) as [| [m | msg] | msg]; simpl in Hmeta.
    - injection Hmeta as <-. eauto.
    - injection Hmeta as <-. eexists. split; reflexivity.
    - discriminate.
    - discriminate. }
  destruct Hmd as (md & -> & Hmd).
  assert (Hts : exists ts, o2 = skeleton fmt md c ts [] [] /\
            collected (option_on options "extract_tables" true) (tables d) table_data ts).
  { unfold collected. destruct (option_on options "extract_tables" true).
    - destruct (tables d) as [| it | msg]; cbn [if_hasattr] in Htab.
      + injection Htab as <-. eauto.
      + apply bind_done in Htab as (l & Hit & Htab).
        destruct it as [l' | msg]; [| discriminate]. injection Hit as ->.
        apply (for_each_append_done table_data "tables") in Htab as (rs & Hrs & ->).
        rewrite fold_append_tables. eauto.
      + discriminate.
    - injection Htab as <-. eauto. }
  destruct Hts as (ts & -> & Hts).
  assert (Hfs : exists fs, o3 = skeleton fmt md c ts fs [] /\
            collected (option_on options "extract_figures" true) (figures d) (figure_data w) fs).
  { unfold collected. destruct (option_on options "extract_figures" true).
    - destruct (figures d) as [| it | msg]; cbn [if_hasattr] in Hfig.
      + injection Hfig as <-. eauto.
      + apply bind_done in Hfig as (l & Hit & Hfig).
        destruct it as [l' | msg]; [| discriminate]. injection Hit as ->.
        apply (for_each_append_done (figure_data w) "figures") in Hfig as (rs & Hrs & ->).
        rewrite fold_append_figures. eauto.
      + discriminate.
    - injection Hfig as <-. eauto. }
  destruct Hfs as (fs & -> & Hfs).
  assert (Hls : exists ls, out = skeleton fmt md c ts fs ls /\
            collected (option_on options "preserve_layout" true) (layout d) layout_element ls).
  { unfold collected. destruct (option_on options "preserve_layout" true).
    - destruct (layout d) as [| it | msg]; cbn [if_hasattr] in Hlay.
      + injection Hlay as <-. eauto.
      + apply bind_done in Hlay as (l & Hit & Hlay).
        destruct it as [l' | msg]; [| discriminate]. injection Hit as ->.
        apply (for_each_append_done layout_element "layout") in Hlay as (rs & Hrs & ->).
        rewrite fold_append_layout. eauto.
      + discriminate.
    - injection Hlay as <-. eauto. }
  destruct Hls as (ls & -> & Hls).
  exists c, md, ts, fs, ls. auto 10.
Qed.

Lemma flatten_done w p options cr out :
  result (flatten w p options cr) = Done out ->
  exists size, fs_size w p = Some size /\
    match cr with
    | NotDocument =>
        out = skeleton (format_of options) (base_meta p size) "" [] [] []
    | IsDocument d =>
        exists c md ts fs ls,
          out = skeleton (format_of options) md c ts fs ls /\
          content_of options d c /\
          metadata_of d (base_meta p size) md /\
          collected (option_on options "extract_tables" true) (tables d) table_data ts /\
          collected (option_on options "extract_figures" true) (figures d) (figure_data w) fs /\
          collected (option_on options "preserve_layout" true) (layout d) layout_element ls
    end.
Proof.
  unfold flatten, stat_size. intros H.
  apply bind_done in H as (size & Hsize & H).
  destruct (fs_size w p) as [n |]; [| discriminate].
  injection Hsize as <-. exists n. split; [reflexivity |].
  destruct cr as [d |].
  - apply flatten_document_done in H. exact H.
  - injection H as <-. reflexivity.
Qed.

Lemma result_try_except {A} (m : M A) (h : string -> M A) :
  result (try_except m h) =
  match result m with
  | Raised msg => result (h msg)
  | o => o
  end.
Proof.
  destruct m as [es [a | msg | c]]; simpl; try reflexivity.
  destruct (h msg); reflexivity.
Qed.

(** Pushes [result] through the combinators. *)
Ltac run_result :=
  repeat first
    [ rewrite result_bind
    | rewrite result_try_except
    | progress cbn [ret emit lift raise sys_exit result snd converter] ].

Lemma process_document_eq w self p options :
  result (process_document w self p options) =
  match converter_of w self options with
  | Raise msg => Raised msg
  | Ok conv =>
      match
        match conv (path_text p) with
        | Raise e => Raised e
        | Ok cr => result (flatten w p options cr)
        end
      with
      | Done out => Done ({| converter := Some conv |}, out)
      | Raised e => Done ({| converter := Some conv |}, failure options e)
      | Exited c => Exited c
      end
  end.
Proof.
  unfold process_document, converter_of, initialize_converter, convert.
  destruct self as [[conv |]]; cbn [converter].
  - run_result. destruct (conv (path_text p)) as [cr | e]; run_result.
    + destruct (result (flatten w p options cr)); run_result; reflexivity.
    + reflexivity.
  - run_result.
    destruct (new_converter w _) as [conv | msg]; run_result; [| reflexivity].
    destruct (conv (path_text p)) as [cr | e]; run_result.
    + destruct (result (flatten w p options cr)); run_result; reflexivity.
    + reflexivity.
Qed.

(** A run of [process_document] that returns comes from a built converter,
    and either the flattening finished or its exception became a failure. *)
Lemma process_document_done w self p options s r :
  result (process_document w self p options) = Done (s, r) ->
  exists conv,
    converter_of w self options = Ok conv /\
    s = {| converter := Some conv |} /\
    ((exists cr, conv (path_text p) = Ok cr /\
                 result (flatten w p options cr) = Done r) \/
     (exists e, r = failure options e /\
        (conv (path_text p) = Raise e \/
         exists cr, conv (path_text p) = Ok cr /\
                    result (flatten w p options cr) = Raised e))).
Proof.
  rewrite process_document_eq.
  destruct (converter_of w self options) as [conv | msg]; [| discriminate].
  intros H. exists conv. split; [reflexivity |].
  destruct (conv (path_text p)) as [cr | e].
  - destruct (result (flatten w p options cr)) as [out | e | c] eqn:E;
      [| | discriminate]; injection H as <- <-; (split; [reflexivity |]).
    + left. eauto.
    + right. exists e. split; [reflexivity |]. right. eauto.
  - injection H as <- <-. split; [reflexivity |].
    right. exists e. split; [reflexivity |]. left. reflexivity.
Qed.

(** *** [main] *)

Lemma main_missing w args :
  fs_size w (pathlib w (input_file args)) = None ->
  main w args =
  ([Log ERROR ("Input file not found: " +:+ path_text (pathlib w (input_file args)))],
   Exited 1).
Proof. unfold main, path_exists. intros ->. reflexivity. Qed.

Lemma main_present w args n :
  fs_size w (pathlib w (input_file args)) = Some n ->
  main w args =
  (let* run := cli_run w args in
   write_output w args (snd run) ;;;
   ret (if truthy (dict_get_default "success" (VBool false) (snd run))
        then 0 else 1)).
Proof. unfold main, path_exists. intros ->. reflexivity. Qed.

Lemma write_output_emits w args r e p :
  In e (events (write_output w args r)) -> payload_of e = Some p ->
  emitted_from args r p.
Proof.
  unfold write_output, emitted_from, json_dumps.
  destruct (output_file args) as [[| c f] |]; destruct (is_json (output_format args));
    try destruct (open_w w _); try destruct (first_foreign (VDict r));
    try (destruct (dict_get_default "content" (VStr "") r) as [[| b | z | fl | txt | cls rp] | l | d] eqn:E);
    simpl; intros H Hp;
    repeat (destruct H as [<- | H]; [simpl in Hp; try discriminate; injection Hp as <-; eauto |]);
    try contradiction.
Qed.

Lemma write_output_no_exit w args r c :
  result (write_output w args r) <> Exited c.
Proof.
  unfold write_output, json_dumps.
  destruct (output_file args) as [[| ch f] |]; destruct (is_json (output_format args));
    try destruct (open_w w _); try destruct (first_foreign (VDict r));
    try (destruct (dict_get_default "content" (VStr "") r) as [[| b | z | fl | txt | cls rp] | l | d]);
    simpl; discriminate.
Qed.

(** Anything [main] prints or writes comes from [write_output], applied to
    the dictionary that [process_document] returned. *)
Lemma main_emits w args e p :
  In e (events (main w args)) -> payload_of e = Some p ->
  exists s r, result (cli_run w args) = Done (s, r) /\ emitted_from args r p.
Proof.
  intros Hin Hp.
  destruct (fs_size w (pathlib w (input_file args))) as [n |] eqn:Hfs.
  - rewrite (main_present _ _ _ Hfs), events_bind in Hin.
    assert (Hq : Forall silent (events (cli_run w args)))
      by apply quiet_process_document.
    assert (Hsilent : In e (events (cli_run w args)) -> False).
    { intros Hi. rewrite Forall_forall in Hq. apply list_elem_of_In, Hq in Hi.
      destruct e; simpl in Hp, Hi; try discriminate; contradiction. }
    destruct (result (cli_run w args)) as [[s r] | msg | c] eqn:Hrun;
      try (exfalso; auto; fail).
    apply in_app_or in Hin as [Hi | Hi]; [exfalso; auto |].
    exists s, r. split; [reflexivity |].
    rewrite events_bind in Hi. cbn [snd] in Hi.
    apply (write_output_emits w args r e p); [| exact Hp].
    destruct (result (write_output w args r)); try exact Hi.
    simpl in Hi. rewrite app_nil_r in Hi. exact Hi.
  - rewrite (main_missing _ _ Hfs) in Hin. simpl in Hin.
    destruct Hin as [<- | []]. discriminate.
Qed.

(** The exit status, case by case. *)
Lemma exit_status_main w args :
  exit_status (main w args) =
  match fs_size w (pathlib w (input_file args)) with
  | None => 1
  | Some _ =>
      match result (cli_run w args) with
      | Done run =>
          match result (write_output w args (snd run)) with
          | Done _ =>
              if truthy (dict_get_default "success" (VBool false) (snd run))
              then 0 else 1
          | _ => 1
          end
      | _ => 1
      end
  end.
Proof.
  destruct (fs_size w (pathlib w (input_file args))) as [n |] eqn:Hfs.
  - rewrite (main_present _ _ _ Hfs). unfold exit_status. rewrite result_bind.
    destruct (result (cli_run w args)) as [run | msg | c] eqn:Hrun.
    + rewrite result_bind.
      destruct (result (write_output w args (snd run))) as [[] | msg | c] eqn:Hw;
        try reflexivity.
      exfalso. exact (write_output_no_exit _ _ _ _ Hw).
    + reflexivity.
    + exfalso. destruct (quiet_process_document w new_processor
        (pathlib w (input_file args)) (cli_options args)) as [_ Hx].
      exact (Hx c Hrun).
  - rewrite (main_missing _ _ Hfs). reflexivity.
Qed.

(** The options built from the command line. *)
Lemma cli_option_on args :
  option_on (cli_options args) "extract_tables" true = extract_tables args /\
  option_on (cli_options args) "extract_figures" true = extract_figures args /\
  option_on (cli_options args) "preserve_layout" true = preserve_layout args /\
  option_on (cli_options args) "extract_equations" false = extract_equations args /\
  cli_options args !! "output_format" = Some (VStr (format_name (output_format args))).
Proof.
  unfold option_on, cli_options. repeat split; simplify_map_eq; reflexivity.
Qed.

(** *** Generic facts on dictionaries *)

Lemma dict_get_set_ne (k k' : string) (v : value) (d : dict) :
  k <> k' -> dict_get k (dict_set k' v d) = dict_get k d.
Proof.
  intros Hne. induction d as [| [k0 v0] d IH]; simpl.
  - destruct (String.eqb k k') eqn:E; [apply String.eqb_eq in E; contradiction | reflexivity].
  - destruct (String.eqb k' k0) eqn:E'; simpl.
    + apply String.eqb_eq in E' as <-.
      destruct (String.eqb k k') eqn:E; [apply String.eqb_eq in E; contradiction | reflexivity].
    + rewrite IH. reflexivity.
Qed.

Lemma dict_get_append_ne (k k' : string) (x : value) (d : dict) :
  k <> k' -> dict_get k (dict_append k' x d) = dict_get k d.
Proof.
  intros Hne. unfold dict_append.
  destruct (dict_get k' d) as [[a | l | d'] |]; try reflexivity.
  apply dict_get_set_ne. exact Hne.
Qed.

(** *** The two shapes of a result *)

Definition well_shaped (r : dict) : Prop :=
  (dict_get "success" r = Some (VBool true) /\
   keys r = success_keys /\
   ~ In "error" (keys r)) \/
  (dict_get "success" r = Some (VBool false) /\
   keys r = failure_keys /\
   forall k, In k payload_keys -> ~ In k (keys r)).

Lemma skeleton_well_shaped fmt meta c ts fs ls :
  well_shaped (skeleton fmt meta c ts fs ls).
Proof.
  left. repeat split. simpl. intros H.
  repeat (destruct H as [H | H]; [discriminate |]). exact H.
Qed.

Lemma failure_well_shaped options e : well_shaped (failure options e).
Proof.
  right. repeat split. simpl. intros k Hk H.
  repeat (destruct Hk as [<- | Hk];
          [repeat (destruct H as [H | H]; [discriminate |]); exact H |]).
  exact Hk.
Qed.

Lemma process_document_shape w self p options s r :
  result (process_document w self p options) = Done (s, r) -> well_shaped r.
Proof.
  intros H. apply process_document_done in H as (conv & _ & _ & [H | H]).
  - destruct H as (cr & _ & H). apply flatten_done in H as (size & _ & H).
    destruct cr as [d |].
    + destruct H as (c & md & ts & fs & ls & -> & _). apply skeleton_well_shaped.
    + subst r. apply skeleton_well_shaped.
  - destruct H as (e & -> & _). apply failure_well_shaped.
Qed.

(** A successful result is a flattened one. *)
Lemma process_document_success w self p options s r :
  result (process_document w self p options) = Done (s, r) ->
  dict_get "success" r = Some (VBool true) ->
  exists conv cr,
    converter_of w self options = Ok conv /\
    conv (path_text p) = Ok cr /\
    result (flatten w p options cr) = Done r.
Proof.
  intros H Hs. apply process_document_done in H as (conv & Hc & _ & [H | H]).
  - destruct H as (cr & Hcr & H). eauto.
  - destruct H as (e & -> & _). discriminate.
Qed.

(** ** The claims *)

(** C1. Whatever the world and the command line, a JSON document that [main]
    prints or writes is the result dictionary, and that dictionary has one
    of two shapes: [success] true with exactly the keys success, format,
    metadata, content, tables, figures, layout (no error key), or [success]
    false with exactly the keys success, error, format (none of metadata,
    content, tables, figures, layout). *)
Theorem emitted_json_keys (w : World) (args : Args) (e : event)
    (indent : option nat) (doc : value) :
  In e (events (main w args)) ->
  payload_of e = Some (PJson indent doc) ->
  exists r, doc = VDict r /\
    ((dict_get "success" r = Some (VBool true) /\
      keys r = success_keys /\
      ~ In "error" (keys r)) \/
     (dict_get "success" r = Some (VBool false) /\
      keys r = failure_keys /\
      forall k, In k payload_keys -> ~ In k (keys r))).
Proof.
  intros Hin Hp.
  destruct (main_emits w args e _ Hin Hp) as (s & r & Hrun & Hem).
  unfold emitted_from in Hem. destruct (is_json (output_format args)).
  - destruct Hem as (i & [= _ ->]). exists r. split; [reflexivity |].
    unfold cli_run in Hrun.
    exact (process_document_shape _ _ _ _ _ _ Hrun).
  - discriminate.
Qed.

(** C2. In a successful run started from the command line, a list whose
    flag was not given is empty, whatever the converter returned. *)
Theorem cli_flag_off_empty (w : World) (args : Args) (s : DoclingProcessor)
    (r : dict) :
  result (cli_run w args) = Done (s, r) ->
  dict_get "success" r = Some (VBool true) ->
  (extract_tables args = false -> dict_get "tables" r = Some (VList [])) /\
  (extract_figures args = false -> dict_get "figures" r = Some (VList [])) /\
  (preserve_layout args = false -> dict_get "layout" r = Some (VList [])).
Proof.
  intros Hrun Hs. unfold cli_run in Hrun.
  destruct (process_document_success _ _ _ _ _ _ Hrun Hs) as (conv & cr & _ & _ & Hf).
  apply flatten_done in Hf as (size & _ & Hf).
  destruct (cli_option_on args) as (Et & Ef & El & _ & _).
  destruct cr as [d |].
  - destruct Hf as (c & md & ts & fs & ls & -> & _ & _ & Ht & Hfg & Hl).
    rewrite Et in Ht. rewrite Ef in Hfg. rewrite El in Hl.
    unfold collected in *. repeat split; intros Hoff; rewrite Hoff in *; subst; reflexivity.
  - subst r. repeat split; reflexivity.
Qed.

(** C7. In a successful run from the command line on a [Document], the
    content is [to_markdown()] for the markdown format and [to_text()] for
    the text and json formats. *)
Theorem content_rendering (w : World) (args : Args) (conv : DocumentConverter)
    (d : Document) (s : DoclingProcessor) (r : dict) :
  new_converter w (configure (cli_options args) (pipeline_defaults w)) = Ok conv ->
  conv (path_text (pathlib w (input_file args))) = Ok (IsDocument d) ->
  result (cli_run w args) = Done (s, r) ->
  dict_get "success" r = Some (VBool true) ->
  exists c, dict_get "content" r = Some (VStr c) /\
    match output_format args with
    | markdown => to_markdown d = Ok c
    | text => to_text d = Ok c
    | json => to_text d = Ok c
    end.
Proof.
  intros Hnew Hconv Hrun Hs. unfold cli_run in Hrun.
  destruct (process_document_success _ _ _ _ _ _ Hrun Hs) as (conv' & cr & Hc & Hcr & Hf).
  unfold converter_of in Hc. cbn [new_processor converter] in Hc.
  rewrite Hnew in Hc. injection Hc as <-. rewrite Hconv in Hcr. injection Hcr as <-.
  apply flatten_done in Hf as (size & _ & (c & md & ts & fs & ls & -> & Hcontent & _)).
  exists c. split; [reflexivity |].
  destruct Hcontent as (fmt & Hfmt & Hc).
  destruct (cli_option_on args) as (_ & _ & _ & _ & Efmt).
  rewrite Efmt in Hfmt. injection Hfmt as <-.
  destruct (output_format args); exact Hc.
Qed.

(** C10. When [convert] returns something that is not a [Document], the
    result is the untouched skeleton, whatever the options: success, empty
    content and lists, and the metadata of the file system alone. *)
Theorem non_document_skeleton (w : World) (self : DoclingProcessor) (p : Path)
    (options : gmap string value) (conv : DocumentConverter) (size : Z) :
  converter_of w self options = Ok conv ->
  conv (path_text p) = Ok NotDocument ->
  fs_size w p = Some size ->
  result (process_document w self p options) =
  Done ({| converter := Some conv |},
        [ ("success", VBool true);
          ("format", format_of options);
          ("metadata",
            VDict [ ("filename", VStr (path_name p));
                    ("file_size", VInt size);
                    ("pages", VInt 0) ]);
          ("content", VStr "");
          ("tables", VList []);
          ("figures", VList []);
          ("layout", VList []) ]).
Proof.
  intros Hc Hconv Hfs. rewrite process_document_eq, Hc, Hconv.
  unfold flatten, stat_size. rewrite Hfs. reflexivity.
Qed.

(** *** Layout *)

(** A layout record, by its four entries. *)
Definition element_record (tag : string) (content : string) (lvl : value)
    (meta : dict) : dict :=
  [ ("type", VStr tag); ("content", VStr content); ("level", lvl);
    ("metadata", VDict meta) ].

(** The level entry of a record made from [e] under tag [tag]. *)
Definition level_attached (e : Element) (tag : string) (lvl : value) : Prop :=
  lvl = VNone \/
  (tag = "header" /\ exists n, element_level e = Has (Ok n) /\ lvl = VInt n).

(** The [if]/[elif] chain picks the first tag of the precedence table. *)
Lemma classify_done e ty le :
  result (classify e ty (element_record "paragraph" "" VNone [])) = Done le ->
  exists lvl,
    le = element_record (first_match precedence ty) "" lvl [] /\
    level_attached e (first_match precedence ty) lvl.
Proof.
  unfold classify, first_match, precedence, level_attached. cbn [existsb].
  repeat match goal with
         | |- context [contains ?k ty] =>
             destruct (contains k ty); cbn [orb]
         end;
    try (intros [= <-]; exists VNone; split; [reflexivity | left; reflexivity]);
    (destruct (element_level e) as [| [n | msg] | msg]; simpl;
     intros [= <-];
     [ exists VNone; split; [reflexivity | left; reflexivity]
     | exists (VInt n); split; [reflexivity | right; eauto] ]).
Qed.

Lemma layout_element_done e le :
  result (layout_element e) = Done le ->
  exists content lvl meta,
    le = element_record (element_tag e) content lvl meta /\
    level_attached e (element_tag e) lvl.
Proof.
  unfold layout_element. intros H.
  apply bind_done in H as (le1 & Hty & H).
  apply bind_done in H as (le2 & Htext & H).
  apply bind_done in H as (le3 & Hbox & H).
  assert (H1 : exists lvl, le1 = element_record (element_tag e) "" lvl [] /\
                           level_attached e (element_tag e) lvl).
  { unfold element_tag, type_tag.
    destruct (element_type e) as [| ty | msg]; cbn [if_hasattr] in Hty.
    - injection Hty as <-. exists VNone. split; [reflexivity | left; reflexivity].
    - apply classify_done in Hty. exact Hty.
    - discriminate. }
  destruct H1 as (lvl & -> & Hlvl).
  assert (H2 : exists content, le2 = element_record (element_tag e) content lvl []).
  { destruct (element_text e) as [| t | msg].
    - destruct (element_content e) as [| c | msg]; simpl in Htext;
        [| | discriminate]; injection Htext as <-; eauto.
    - injection Htext as <-. eauto.
    - discriminate. }
  destruct H2 as (content & ->).
  assert (H3 : exists meta, le3 = element_record (element_tag e) content lvl meta).
  { destruct (element_bbox e) as [| b | msg]; cbn [if_hasattr] in Hbox.
    - injection Hbox as <-. eauto.
    - apply bind_done in Hbox as (box & _ & Hbox). injection Hbox as <-. eauto.
    - discriminate. }
  destruct H3 as (meta & ->).
  destruct (element_page e) as [| pg | msg]; simpl in H.
  - injection H as <-. eauto.
  - injection H as <-. eauto.
  - discriminate.
Qed.

(** The level written by the header branch, and by no other. *)
Lemma classify_level e ty le :
  result (classify e ty (element_record "paragraph" "" VNone [])) = Done le ->
  dict_get "level" le =
  Some (if String.eqb (first_match precedence ty) "header" then
          match element_level e with
          | Has (Ok n) => VInt n
          | _ => VNone
          end
        else VNone).
Proof.
  unfold classify, first_match, precedence. cbn [existsb].
  repeat match goal with
         | |- context [contains ?k ty] =>
             destruct (contains k ty); cbn [orb]
         end;
    try (intros [= <-]; reflexivity);
    (destruct (element_level e) as [| [n | msg] | msg]; simpl;
     intros [= <-]; reflexivity).
Qed.

Lemma layout_element_level e le :
  result (layout_element e) = Done le ->
  dict_get "level" le = Some (level_of e).
Proof.
  unfold layout_element. intros H.
  apply bind_done in H as (le1 & Hty & H).
  apply bind_done in H as (le2 & Htext & H).
  apply bind_done in H as (le3 & Hbox & H).
  assert (H1 : dict_get "level" le1 = Some (level_of e) /\
               exists tag lvl, le1 = element_record tag "" lvl []).
  { unfold level_of, element_tag, type_tag.
    destruct (element_type e) as [| ty | msg]; cbn [if_hasattr] in Hty.
    - injection Hty as <-. split; [reflexivity | eauto].
    - split; [apply classify_level; exact Hty |].
      apply classify_done in Hty as (lvl & -> & _). eauto.
    - discriminate. }
  destruct H1 as (Hlevel & tag & lvl & ->).
  cbn in Hlevel. injection Hlevel as Hlevel. rewrite <- Hlevel.
  assert (H2 : exists content, le2 = element_record tag content lvl []).
  { destruct (element_text e) as [| t | msg].
    - destruct (element_content e) as [| c | msg]; simpl in Htext;
        [| | discriminate]; injection Htext as <-; eauto.
    - injection Htext as <-. eauto.
    - discriminate. }
  destruct H2 as (content & ->).
  assert (H3 : exists meta, le3 = element_record tag content lvl meta).
  { destruct (element_bbox e) as [| b | msg]; cbn [if_hasattr] in Hbox.
    - injection Hbox as <-. eauto.
    - apply bind_done in Hbox as (box & _ & Hbox). injection Hbox as <-. eauto.
    - discriminate. }
  destruct H3 as (meta & ->).
  destruct (element_page e) as [| pg | msg]; simpl in H.
  - injection H as <-. reflexivity.
  - injection H as <-. reflexivity.
  - discriminate.
Qed.

(** C3. With [preserve_layout] on, the layout list of a flattened document
    has one record per layout element, in the same order; the type of each
    record is the tag the precedence table gives for the lower-cased
    reported type (paragraph when the element reports none); and the level
    of each record is the integer level of its element when the record is a
    header and the element exposes a level, and [None] in every other case:
    a level is attached to every header whose element exposes one, and to
    no other record. *)
Theorem layout_classification (w : World) (p : Path)
    (options : gmap string value) (d : Document) (els : list Element)
    (out : dict) :
  option_on options "preserve_layout" true = true ->
  layout d = Has (Items els) ->
  result (flatten w p options (IsDocument d)) = Done out ->
  exists ls,
    dict_get "layout" out = Some (VList (map VDict ls)) /\
    map (dict_get "type") ls = map (fun e => Some (VStr (element_tag e))) els /\
    map (dict_get "level") ls = map (fun e => Some (level_of e)) els /\
    Forall2 (fun e le =>
               dict_get "level" le = Some VNone \/
               (dict_get "type" le = Some (VStr "header") /\
                exists n, element_level e = Has (Ok n) /\
                          dict_get "level" le = Some (VInt n))) els ls.
Proof.
  intros Hon Hlayout Hf.
  apply flatten_done in Hf as (size & _ & (c & md & ts & fs & ls & -> & _ & _ & _ & _ & Hl)).
  rewrite Hon, Hlayout in Hl. cbn [collected] in Hl.
  destruct Hl as (rs & Hrs & ->). exists rs. split; [reflexivity |].
  clear Hlayout Hon.
  induction Hrs as [| e le els rs He _ IH]; [repeat split; constructor |].
  pose proof (layout_element_level _ _ He) as Hexact.
  apply layout_element_done in He as (content & lvl & meta & -> & Hlvl).
  destruct IH as (IHt & IHn & IHl). split; [| split].
  - cbn [map]. f_equal. exact IHt.
  - cbn [map]. f_equal; [exact Hexact | exact IHn].
  - constructor; [| exact IHl]. destruct Hlvl as [-> | (Ht & n & Hn & ->)].
    + left. reflexivity.
    + right. cbn. rewrite Ht. eauto.
Qed.

(** *** Metadata *)

(** C5, as the code has it. The metadata of a successful output always
    carries the file name and size of the input path and a page count. Title
    and author are there exactly when the result is a [Document] with a
    metadata map: then title, author and pages are the map's [title],
    [author] and [page_count], defaulting to the empty string and zero.
    Without a metadata map (or without a [Document]) the metadata is the
    file name, the size and [pages] 0, with no title and no author. *)
Theorem metadata_fields (w : World) (p : Path) (options : gmap string value)
    (cr : ConvResult) (out : dict) :
  result (flatten w p options cr) = Done out ->
  exists size md,
    fs_size w p = Some size /\
    dict_get "metadata" out = Some (VDict md) /\
    dict_get "filename" md = Some (VStr (path_name p)) /\
    dict_get "file_size" md = Some (VInt size) /\
    match cr with
    | IsDocument {| metadata := Has (DictLike m) |} =>
        keys md = ["filename"; "file_size"; "pages"; "title"; "author"] /\
        dict_get "title" md = Some (default (VStr "") (m !! "title")) /\
        dict_get "author" md = Some (default (VStr "") (m !! "author")) /\
        dict_get "pages" md = Some (default (VInt 0) (m !! "page_count"))
    | _ =>
        md = [ ("filename", VStr (path_name p));
               ("file_size", VInt size);
               ("pages", VInt 0) ]
    end.
Proof.
  intros Hf. apply flatten_done in Hf as (size & Hfs & Hf).
  exists size. destruct cr as [d |].
  - destruct Hf as (c & md & ts & fs & ls & -> & _ & Hmd & _).
    exists md. unfold metadata_of in Hmd. destruct d as [tm tt md0 tb fg ly].
    cbn [metadata] in Hmd.
    destruct md0 as [| [m | msg] | msg]; try contradiction; subst md;
      repeat split; try reflexivity; exact Hfs.
  - subst out. exists (base_meta p size). repeat split; try reflexivity; exact Hfs.
Qed.

(** *** Figures *)

(** C6, as the code has it. A figure whose caption can be read and whose
    image either fails inside the guarded encoding block or carries nothing
    to encode still yields its record: the failure is only logged, as one
    warning; the record holds the caption, the type and the key [base64]
    with the value [None]; it is appended to the figures, and the success
    flag of the output is untouched. *)
Theorem image_failure_swallowed (w : World) (f : Figure) (cap : string) :
  caption_text f = Some cap ->
  image_failure w f <> None \/ no_payload f ->
  figure_data w f =
    (match image_failure w f with
     | Some e => [Log WARNING ("Could not extract figure image: " +:+ e)]
     | None => []
     end,
     Done [ ("caption", VStr cap); ("type", VStr "figure"); ("base64", VNone) ]) /\
  forall output,
    result (flatten_figure w f output) =
      Done (dict_append "figures"
              (VDict [ ("caption", VStr cap); ("type", VStr "figure");
                       ("base64", VNone) ]) output) /\
    dict_get "success"
      (dict_append "figures"
         (VDict [ ("caption", VStr cap); ("type", VStr "figure");
                  ("base64", VNone) ]) output)
    = dict_get "success" output.
Proof.
  intros Hcap Himg.
  assert (Hdata : figure_data w f =
    (match image_failure w f with
     | Some e => [Log WARNING ("Could not extract figure image: " +:+ e)]
     | None => []
     end,
     Done [ ("caption", VStr cap); ("type", VStr "figure"); ("base64", VNone) ])).
  { unfold figure_data, encode_image, image_failure, caption_text, no_payload in *.
    destruct (figure_caption f) as [| c | msg]; [| | discriminate];
      injection Hcap as <-;
      (destruct (figure_image f) as [| [[png | e] |] | msg];
       [ reflexivity
       | destruct (import_pil w) as [[] | e]; [| reflexivity];
         exfalso; destruct Himg as [H | [H | H]]; [apply H; reflexivity | discriminate | discriminate]
       | destruct (import_pil w) as [[] | e']; reflexivity
       | destruct (import_pil w) as [[] | e']; reflexivity
       | exfalso; destruct Himg as [H | [H | H]]; [apply H; reflexivity | discriminate | discriminate] ]). }
  split; [exact Hdata |].
  intros output. split.
  - unfold flatten_figure. rewrite result_bind, Hdata. reflexivity.
  - apply dict_get_append_ne. discriminate.
Qed.

(** *** Failures *)

Lemma failure_cli args e :
  failure (cli_options args) e =
  [ ("success", VBool false);
    ("error", VStr e);
    ("format", VStr (format_name (output_format args))) ].
Proof.
  unfold failure. destruct (cli_option_on args) as (_ & _ & _ & _ & ->). reflexivity.
Qed.

(** C4, as the code has it. When the converter is built and either the
    conversion call raises, or the flattening lets an exception through
    (one not absorbed by the guard around the image encoding), with message
    [e], the result is exactly [{success: false, error: e, format}], where
    [e] may be any string, the empty one included; the exit status is 1;
    and whatever is printed or written is taken from that failure object,
    never from a partly built output. *)
Theorem conversion_failure (w : World) (args : Args) (conv : DocumentConverter)
    (size : Z) (e : string) :
  fs_size w (pathlib w (input_file args)) = Some size ->
  new_converter w (configure (cli_options args) (pipeline_defaults w)) = Ok conv ->
  (conv (path_text (pathlib w (input_file args))) = Raise e \/
   exists cr,
     conv (path_text (pathlib w (input_file args))) = Ok cr /\
     result (flatten w (pathlib w (input_file args)) (cli_options args) cr) = Raised e) ->
  let failed :=
    [ ("success", VBool false);
      ("error", VStr e);
      ("format", VStr (format_name (output_format args))) ] in
  result (cli_run w args) = Done ({| converter := Some conv |}, failed) /\
  keys failed = failure_keys /\
  exit_status (main w args) = 1 /\
  forall ev p,
    In ev (events (main w args)) -> payload_of ev = Some p ->
    emitted_from args failed p.
Proof.
  intros Hfs Hnew Hraise failed.
  assert (Hrun : result (cli_run w args) = Done ({| converter := Some conv |}, failed)).
  { unfold cli_run. rewrite process_document_eq. unfold converter_of.
    cbn [new_processor converter]. rewrite Hnew.
    destruct Hraise as [-> | (cr & -> & ->)]; rewrite failure_cli; reflexivity. }
  split; [exact Hrun |]. split; [reflexivity |]. split.
  - rewrite exit_status_main, Hfs, Hrun. cbn [snd].
    destruct (result (write_output w args failed)); reflexivity.
  - intros ev p Hin Hp.
    destruct (main_emits w args ev p Hin Hp) as (s & r & Hrun' & Hem).
    rewrite Hrun in Hrun'. injection Hrun' as <- <-. exact Hem.
Qed.

(** *** Exit status *)




(** *** The equations flag *)

(** The options are read under four keys only. *)
Lemma flatten_reads w p (o o' : gmap string value) cr :
  (forall k, k <> "extract_equations" -> o !! k = o' !! k) ->
  flatten w p o cr = flatten w p o' cr.
Proof.
  intros H. unfold flatten, flatten_document, output_format_of, option_on.
  rewrite (H "output_format"), (H "extract_tables"), (H "extract_figures"),
    (H "preserve_layout") by discriminate.
  reflexivity.
Qed.

(** C9. The flattening never reads [extract_equations]: setting that option
    to any value leaves the flattened output, its events and the failure
    object unchanged, for every converter result; two command lines that
    differ in [--extract-equations] alone flatten a given result alike; the
    flag only reaches the pipeline options handed to the converter. *)
Theorem equations_flag_ignored (w : World) (p : Path)
    (options : gmap string value) (v : value) (cr : ConvResult)
    (args : Args) (b : bool) (e : string) (defaults : PipelineOptions) :
  flatten w p (<["extract_equations" := v]> options) cr = flatten w p options cr /\
  failure (<["extract_equations" := v]> options) e = failure options e /\
  flatten w p (cli_options (with_equations b args)) cr
    = flatten w p (cli_options args) cr /\
  equation_extraction (configure (cli_options args) defaults)
    = extract_equations args || equation_extraction defaults.
Proof.
  split; [| split; [| split]].
  - apply flatten_reads. intros k Hk. rewrite lookup_insert_ne by congruence.
    reflexivity.
  - unfold failure. rewrite lookup_insert_ne by discriminate. reflexivity.
  - apply flatten_reads. intros k Hk. unfold cli_options.
    cbn [with_equations output_format preserve_layout extract_tables
         extract_figures extract_equations].
    rewrite !lookup_insert. repeat case_decide; congruence.
  - unfold configure.
    destruct (cli_option_on args) as (-> & -> & -> & -> & _).
    destruct (extract_tables args), (extract_figures args),
      (extract_equations args), (preserve_layout args); reflexivity.
Qed.

(** ** The claims on concrete runs *)

Import Examples.

(** C1 on a run that succeeds: the printed document has the seven keys. *)
Lemma emitted_json_keys_witness :
  exists r,
    VDict titled_output = VDict r /\
    ((dict_get "success" r = Some (VBool true) /\
      keys r = success_keys /\
      ~ In "error" (keys r)) \/
     (dict_get "success" r = Some (VBool false) /\
      keys r = failure_keys /\
      forall k, In k payload_keys -> ~ In k (keys r))).
Proof.
  apply (emitted_json_keys (world (converts_to titled_document) true) args_json
           (Print (PJson None (VDict titled_output))) None).
  - vm_compute. right. right. left. reflexivity.
  - reflexivity.
Defined.

(** C2 on a document that carries a table, figures and a layout, run
    without any flag: the three lists stay empty. *)
Lemma cli_flag_off_empty_witness :
  let r := [ ("success", VBool true);
             ("format", VStr "json");
             ("metadata",
               VDict [ ("filename", VStr "report.pdf");
                       ("file_size", VInt 2048);
                       ("pages", VInt 0) ]);
             ("content", VStr "Report");
             ("tables", VList []);
             ("figures", VList []);
             ("layout", VList []) ] in
  result (cli_run (world (converts_to rich_document) true) args_json)
    = Done ({| converter := Some (converts_to rich_document) |}, r) /\
  dict_get "tables" r = Some (VList []) /\
  dict_get "figures" r = Some (VList []) /\
  dict_get "layout" r = Some (VList []).
Proof.
  intros r.
  assert (Hrun : result (cli_run (world (converts_to rich_document) true) args_json)
                 = Done ({| converter := Some (converts_to rich_document) |}, r))
    by (vm_compute; reflexivity).
  destruct (cli_flag_off_empty _ _ _ _ Hrun eq_refl) as (Ht & Hf & Hl).
  split; [exact Hrun |].
  split; [apply Ht; reflexivity |].
  split; [apply Hf; reflexivity | apply Hl; reflexivity].
Defined.

(** C3 on the eight reported types of the specification, each element
    exposing a level: the header alone gets its level. *)
Lemma layout_classification_witness :
  exists ls,
    dict_get "layout" layout_output = Some (VList (map VDict ls)) /\
    map (dict_get "type") ls =
      [ Some (VStr "header"); Some (VStr "table"); Some (VStr "figure");
        Some (VStr "list"); Some (VStr "code"); Some (VStr "footer");
        Some (VStr "caption"); Some (VStr "paragraph") ] /\
    map (dict_get "level") ls =
      [ Some (VInt 1); Some VNone; Some VNone; Some VNone; Some VNone;
        Some VNone; Some VNone; Some VNone ] /\
    Forall2 (fun e le =>
               dict_get "level" le = Some VNone \/
               (dict_get "type" le = Some (VStr "header") /\
                exists n, element_level e = Has (Ok n) /\
                          dict_get "level" le = Some (VInt n)))
      leveled_elements ls.
Proof.
  apply (layout_classification (world (converts_to layout_document) true)
           (plain_path "report.pdf") (cli_options args_all) layout_document
           leveled_elements layout_output).
  - vm_compute. reflexivity.
  - reflexivity.
  - vm_compute. reflexivity.
Defined.

(** C4 on a converter that raises "corrupt file". *)
Lemma conversion_failure_witness :
  let failed :=
    [ ("success", VBool false);
      ("error", VStr "corrupt file");
      ("format", VStr "json") ] in
  result (cli_run (world (raises "corrupt file") true) args_json)
    = Done ({| converter := Some (raises "corrupt file") |}, failed) /\
  keys failed = failure_keys /\
  exit_status (main (world (raises "corrupt file") true) args_json) = 1 /\
  forall ev p,
    In ev (events (main (world (raises "corrupt file") true) args_json)) ->
    payload_of ev = Some p ->
    emitted_from args_json failed p.
Proof.
  apply (conversion_failure (world (raises "corrupt file") true) args_json
           (raises "corrupt file") 2048 "corrupt file").
  - reflexivity.
  - reflexivity.
  - left. reflexivity.
Defined.

(** C5 on a document whose metadata map holds a title only. *)
Lemma metadata_fields_witness :
  exists size md,
    fs_size (world (converts_to titled_document) true) (plain_path "report.pdf")
      = Some size /\
    dict_get "metadata" titled_output = Some (VDict md) /\
    dict_get "filename" md = Some (VStr "report.pdf") /\
    dict_get "file_size" md = Some (VInt size) /\
    keys md = ["filename"; "file_size"; "pages"; "title"; "author"] /\
    dict_get "title" md = Some (VStr "Annual report") /\
    dict_get "author" md = Some (VStr "") /\
    dict_get "pages" md = Some (VInt 0).
Proof.
  apply (metadata_fields (world (converts_to titled_document) true)
           (plain_path "report.pdf") (cli_options args_json)
           (IsDocument titled_document) titled_output).
  vm_compute. reflexivity.
Defined.

(** C6 on a figure whose image cannot be saved as PNG. *)
Lemma image_failure_swallowed_witness :
  figure_data (world (converts_to rich_document) true) broken_figure =
    ([Log WARNING "Could not extract figure image: cannot write mode F as PNG"],
     Done [ ("caption", VStr "Figure 1"); ("type", VStr "figure");
            ("base64", VNone) ]) /\
  forall output,
    result (flatten_figure (world (converts_to rich_document) true)
              broken_figure output) =
      Done (dict_append "figures"
              (VDict [ ("caption", VStr "Figure 1"); ("type", VStr "figure");
                       ("base64", VNone) ]) output) /\
    dict_get "success"
      (dict_append "figures"
         (VDict [ ("caption", VStr "Figure 1"); ("type", VStr "figure");
                  ("base64", VNone) ]) output)
    = dict_get "success" output.
Proof.
  apply (image_failure_swallowed (world (converts_to rich_document) true)
           broken_figure "Figure 1").
  - reflexivity.
  - left. discriminate.
Defined.

(** C7 on the markdown format. *)
Lemma content_rendering_witness :
  exists c,
    dict_get "content"
      [ ("success", VBool true);
        ("format", VStr "markdown");
        ("metadata",
          VDict [ ("filename", VStr "report.pdf");
                  ("file_size", VInt 2048);
                  ("pages", VInt 0);
                  ("title", VStr "Annual report");
                  ("author", VStr "") ]);
        ("content", VStr "# Report");
        ("tables", VList []);
        ("figures", VList []);
        ("layout", VList []) ] = Some (VStr c) /\
    to_markdown titled_document = Ok c.
Proof.
  apply (content_rendering (world (converts_to titled_document) true) args_markdown
           (converts_to titled_document) titled_document
           {| converter := Some (converts_to titled_document) |}).
  - reflexivity.
  - reflexivity.
  - vm_compute. reflexivity.
  - reflexivity.
Defined.

(** C10 on a converter that returns something else, with every flag given. *)
Lemma non_document_skeleton_witness :
  result (process_document (world returns_other true) new_processor
            (plain_path "report.pdf") (cli_options args_all)) =
  Done ({| converter := Some returns_other |},
        [ ("success", VBool true);
          ("format", format_of (cli_options args_all));
          ("metadata",
            VDict [ ("filename", VStr "report.pdf");
                    ("file_size", VInt 2048);
                    ("pages", VInt 0) ]);
          ("content", VStr "");
          ("tables", VList []);
          ("figures", VList []);
          ("layout", VList []) ]).
Proof.
  apply (non_document_skeleton (world returns_other true) new_processor
           (plain_path "report.pdf") (cli_options args_all) returns_other 2048).
  - reflexivity.
  - reflexivity.
  - reflexivity.
Defined.

(** ** Where the specification and the script part *)

(** C4: the [error] string is whatever [str(e)] is.  A converter raising an
    exception without a message gives a failure whose [error] is empty. *)
Lemma error_message_may_be_empty :
  raises "" "report.pdf" = Raise "" /\
  cli_result (world (raises "") true) args_json =
    Some [ ("success", VBool false); ("error", VStr ""); ("format", VStr "json") ] /\
  result_entry (world (raises "") true) args_json "error" = Some (VStr "").
Proof. repeat split; vm_compute; reflexivity. Qed.

(** C5: a successful run on a document without a [metadata] attribute has
    neither a title nor an author in its metadata. *)
Lemma title_and_author_absent :
  metadata rich_document = Missing /\
  result_entry (world (converts_to rich_document) true) args_json "success"
    = Some (VBool true) /\
  result_entry (world (converts_to rich_document) true) args_json "metadata"
    = Some (VDict [ ("filename", VStr "report.pdf");
                    ("file_size", VInt 2048);
                    ("pages", VInt 0) ]) /\
  dict_get "title" [ ("filename", VStr "report.pdf");
                     ("file_size", VInt 2048);
                     ("pages", VInt 0) ] = None /\
  dict_get "author" [ ("filename", VStr "report.pdf");
                      ("file_size", VInt 2048);
                      ("pages", VInt 0) ] = None.
Proof. repeat split; vm_compute; reflexivity. Qed.

(** C6: the record of a figure whose image could not be encoded, and of one
    without an image, has the key [base64], holding [None]. *)
Lemma base64_key_present :
  result_entry (world (converts_to rich_document) true) args_all "success"
    = Some (VBool true) /\
  result_entry (world (converts_to rich_document) true) args_all "figures"
    = Some (VList
        [ VDict [ ("caption", VStr "Figure 1"); ("type", VStr "figure");
                  ("base64", VNone) ];
          VDict [ ("caption", VStr "Figure 2"); ("type", VStr "figure");
                  ("base64", VNone) ] ]) /\
  keys [ ("caption", VStr "Figure 1"); ("type", VStr "figure"); ("base64", VNone) ]
    = ["caption"; "type"; "base64"].
Proof. repeat split; vm_compute; reflexivity. Qed.


End WrapperFacts.

(** * Further properties of the script *)

(** ** Vocabulary *)

Module More.
Import Py Docling Run Wrapper Shape.

(** Events of one kind. *)
Definition is_warning (e : event) : Prop :=
  match e with Log WARNING _ => True | _ => False end.

Definition is_convert (e : event) : bool :=
  match e with Convert _ => true | _ => false end.

(** A computation all of whose events satisfy [P]. *)
Definition confined {A} (P : event -> Prop) (m : M A) : Prop :=
  Forall P (events m).

(** How often the converter was called. *)
Definition count_converts (es : list event) : nat :=
  length (List.filter is_convert es).

(** Everything printed or written, in order. *)
Fixpoint payloads (es : list event) : list payload :=
  match es with
  | [] => []
  | e :: es' =>
      match payload_of e with
      | Some p => p :: payloads es'
      | None => payloads es'
      end
  end.

(** The error line logged by the handler for a failure result. *)
Definition error_log (r : dict) : list event :=
  match dict_get "error" r with
  | Some (VAtom (AStr e)) => [Log ERROR ("Error processing document: " +:+ e)]
  | _ => []
  end.

(** The eight type tags of a layout record. *)
Definition layout_tags : list string :=
  ["paragraph"; "header"; "table"; "figure"; "list"; "code"; "footer"; "caption"].

(** A table record, by its entries. *)
Definition table_dict (headers rows : value) (caption : string) : dict :=
  [ ("headers", headers); ("rows", rows); ("caption", VStr caption);
    ("confidence", VFloat "0.979") ].

(** [[str(cell) for cell in cells]] as a value. *)
Definition cells_value (cells : list atom) : value :=
  VList (map (fun cell => VStr (str cell)) cells).

(** The rows of a table, when each of them can be iterated. *)
Fixpoint plain_rows (rows : list (pyiter atom)) : option (list (list atom)) :=
  match rows with
  | [] => Some []
  | Items cells :: rows' =>
      match plain_rows rows' with
      | Some rest => Some (cells :: rest)
      | None => None
      end
  | NotIterable _ :: _ => None
  end.

(** What the script reads of a table: header cells, rows and caption, each
    possibly missing; [None] where reading it raises. *)
Definition header_cells (t : Table) : option (list atom) :=
  match table_header t with
  | Missing => Some []
  | Has (Items cells) => Some cells
  | _ => None
  end.

Definition row_cells (t : Table) : option (list (list atom)) :=
  match table_rows t with
  | Missing => Some []
  | Has (Items rows) => plain_rows rows
  | _ => None
  end.

Definition table_caption_text (t : Table) : option string :=
  match table_caption t with
  | Missing => Some ""
  | Has c => Some (str c)
  | Faulty _ => None
  end.

(** The text of a layout record: [text] first, then [content], then empty. *)
Definition element_text_of (e : Element) : option string :=
  match element_text e with
  | Has t => Some (str t)
  | Faulty _ => None
  | Missing =>
      match element_content e with
      | Has c => Some (str c)
      | Missing => Some ""
      | Faulty _ => None
      end
  end.

(** The coordinates of a bounding box, when all four can be read. *)
Definition bbox_value (b : BBox) : option value :=
  match bbox_x b, bbox_y b, bbox_width b, bbox_height b with
  | Ok x, Ok y, Ok width, Ok height =>
      Some (VDict [("x", x); ("y", y); ("width", width); ("height", height)])
  | _, _, _, _ => None
  end.

(** The metadata of a layout record: the bounding box, then the page. *)
Definition element_meta_of (e : Element) : option dict :=
  match element_bbox e with
  | Faulty _ => None
  | Missing =>
      match element_page e with
      | Missing => Some []
      | Has pg => Some [("page", pg)]
      | Faulty _ => None
      end
  | Has b =>
      match bbox_value b with
      | None => None
      | Some box =>
          match element_page e with
          | Missing => Some [("bbox", box)]
          | Has pg => Some [("bbox", box); ("page", pg)]
          | Faulty _ => None
          end
      end
  end.

(** The [base64] entry of a figure record: the encoded PNG when PIL is
    there and the image is a PIL image that can be saved, [None] otherwise. *)
Definition base64_of (w : World) (f : Figure) : value :=
  match figure_image f, import_pil w with
  | Has (PILImage (Ok png)), Ok _ => VStr (Base64.b64encode png)
  | _, _ => VNone
  end.

(** A document with the parts the flags switch off put aside. *)
Definition visible (options : gmap string value) (d : Document) : Document :=
  {| to_markdown := to_markdown d;
     to_text := to_text d;
     metadata := metadata d;
     tables := if option_on options "extract_tables" true then tables d else Missing;
     figures := if option_on options "extract_figures" true then figures d else Missing;
     layout := if option_on options "preserve_layout" true then layout d else Missing |}.

(** *** Concrete inputs *)

Import Examples.

(** A document whose metadata title is a date object, not a string. *)
Definition dated_document : Document :=
  {| to_markdown := Ok "# Report";
     to_text := Ok "Report";
     metadata :=
       Has (DictLike (<["title" := VAtom (AObject "datetime" "2024-01-01 00:00:00")]> ∅));
     tables := Missing;
     figures := Missing;
     layout := Missing |}.

(** What a run on [dated_document] in the json format returns. *)
Definition dated_output : dict :=
  [ ("success", VBool true);
    ("format", VStr "json");
    ("metadata",
      VDict [ ("filename", VStr "report.pdf");
              ("file_size", VInt 2048);
              ("pages", VInt 0);
              ("title", VAtom (AObject "datetime" "2024-01-01 00:00:00"));
              ("author", VStr "") ]);
    ("content", VStr "Report");
    ("tables", VList []);
    ("figures", VList []);
    ("layout", VList []) ].

(** The output flattened from [rich_document] with every flag given. *)
Definition rich_output : dict :=
  match result (flatten (world (converts_to rich_document) true)
                  (plain_path "report.pdf") (cli_options args_all)
                  (IsDocument rich_document)) with
  | Done out => out
  | _ => []
  end.

(** The record of [a_table]. *)
Definition a_table_record : dict :=
  [ ("headers", VList [VStr "name"; VStr "qty"]);
    ("rows", VList [VList [VStr "bolt"; VStr "4"]]);
    ("caption", VStr "Parts");
    ("confidence", VFloat "0.979") ].

(** An element whose reported type names a table and, in capitals, a header. *)
Definition shouting_element : Element := element_of_type "TABLE_HEADER_ROW".

Definition header_record : dict :=
  [ ("type", VStr "header"); ("content", VStr "text"); ("level", VNone);
    ("metadata", VDict []) ].

End More.

(** ** Proofs *)

Module MoreFacts.
Import Py Docling Run Wrapper Shape RunFacts WrapperFacts More.

(** *** Events of a given kind *)

Section Confined.
Variable P : event -> Prop.

Lemma confined_ret {A} (a : A) : confined P (ret a).
Proof. constructor. Qed.

Lemma confined_raise {A} (msg : string) : confined P (@raise A msg).
Proof. constructor. Qed.

Lemma confined_lift {A} (r : pyres A) : confined P (lift r).
Proof. destruct r; constructor. Qed.

Lemma confined_emit (e : event) : P e -> confined P (emit e).
Proof. intros H. repeat constructor. exact H. Qed.

Lemma confined_bind {A B} (m : M A) (k : A -> M B) :
  confined P m -> (forall a, confined P (k a)) -> confined P (bind m k).
Proof.
  unfold confined. intros Hm Hk. rewrite events_bind.
  destruct (result m); try assumption.
  apply Forall_app. split; [assumption | apply Hk].
Qed.

Lemma confined_try_except {A} (m : M A) (h : string -> M A) :
  confined P m -> (forall msg, confined P (h msg)) -> confined P (try_except m h).
Proof.
  unfold confined. intros Hm Hh. destruct m as [es [a | msg | c]]; simpl in *; try assumption.
  specialize (Hh msg). destruct (h msg) as [es' o]. simpl in *.
  apply Forall_app. split; assumption.
Qed.

Lemma confined_for_each {A S} (l : list A) (body : A -> S -> M S) :
  (forall x s, confined P (body x s)) -> forall s, confined P (for_each l body s).
Proof.
  intros Hb. induction l as [| x l IH]; intros s; simpl.
  - apply confined_ret.
  - apply confined_bind; [apply Hb | apply IH].
Qed.

Lemma confined_if_hasattr {A S} (a : attr A) (body : A -> S -> M S) (s : S) :
  (forall v, confined P (body v s)) -> confined P (if_hasattr a body s).
Proof.
  intros Hb. destruct a; simpl; [apply confined_ret | apply Hb | apply confined_raise].
Qed.

Lemma confined_iterate {A} (it : pyiter A) : confined P (iterate it).
Proof. destruct it; constructor. Qed.

Lemma confined_comprehension {A B} (f : A -> B) (it : pyiter A) :
  confined P (comprehension f it).
Proof. destruct it; constructor. Qed.

End Confined.

Ltac confined_step :=
  match goal with
  | |- confined _ (bind _ _) => apply confined_bind; [| intros ?]
  | |- confined _ (try_except _ _) => apply confined_try_except; [| intros ?]
  | |- confined _ (for_each _ _ _) => apply confined_for_each; intros ? ?
  | |- confined _ (if_hasattr _ _ _) => apply confined_if_hasattr; intros ?
  | |- confined _ (emit _) => apply confined_emit; exact I
  | |- confined _ (ret _) => apply confined_ret
  | |- confined _ (raise _) => apply confined_raise
  | |- confined _ (lift _) => apply confined_lift
  | |- confined _ (iterate _) => apply confined_iterate
  | |- confined _ (comprehension _ _) => apply confined_comprehension
  | |- confined _ (if ?c then _ else _) => destruct c
  | |- confined _ (match ?x with _ => _ end) => destruct x
  end.

(** The flattening logs nothing but warnings. *)
Lemma flatten_warnings w p options cr : confined is_warning (flatten w p options cr).
Proof.
  unfold flatten, flatten_document, output_format_of, mapping_get,
    flatten_table, flatten_figure, flatten_element,
    table_data, str_cells, figure_data, encode_image,
    layout_element, classify, bbox_dict.
  repeat confined_step.
Qed.

Lemma events_try_except {A} (m : M A) (h : string -> M A) :
  events (try_except m h) =
  match result m with
  | Raised msg => events m ++ events (h msg)
  | _ => events m
  end.
Proof.
  destruct m as [es [a | msg | c]]; simpl; try reflexivity.
  destruct (h msg); reflexivity.
Qed.

(** Pushes [events] and [result] through the combinators. *)
Ltac run_events :=
  repeat first
    [ rewrite events_bind
    | rewrite events_try_except
    | rewrite result_bind
    | rewrite result_try_except
    | progress cbn [ret emit lift raise sys_exit events result fst snd converter app] ].

(** The events of [process_document], once a converter is there. *)
Lemma process_document_events w self p options conv :
  converter_of w self options = Ok conv ->
  events (process_document w self p options) =
  Log INFO ("Processing document: " +:+ path_text p) ::
  Convert (path_text p) ::
  match conv (path_text p) with
  | Raise e => [Log ERROR ("Error processing document: " +:+ e)]
  | Ok cr =>
      events (flatten w p options cr) ++
      match result (flatten w p options cr) with
      | Raised e => [Log ERROR ("Error processing document: " +:+ e)]
      | _ => []
      end
  end.
Proof.
  unfold process_document, converter_of, initialize_converter, convert.
  destruct self as [[c |]]; cbn [converter].
  - intros [= ->]. run_events.
    destruct (conv (path_text p)) as [cr | e]; run_events; [| reflexivity].
    destruct (result (flatten w p options cr)); run_events;
      rewrite ?app_nil_r; reflexivity.
  - intros Hnew. run_events. rewrite Hnew. run_events.
    destruct (conv (path_text p)) as [cr | e]; run_events; [| reflexivity].
    destruct (result (flatten w p options cr)); run_events;
      rewrite ?app_nil_r; reflexivity.
Qed.

(** *** Counting *)

Lemma count_converts_app es es' :
  count_converts (es ++ es') = (count_converts es + count_converts es')%nat.
Proof. unfold count_converts. rewrite List.filter_app, length_app. reflexivity. Qed.

Lemma payloads_app es es' : payloads (es ++ es') = payloads es ++ payloads es'.
Proof.
  induction es as [| e es IH]; [reflexivity |]. simpl.
  destruct (payload_of e); rewrite IH; reflexivity.
Qed.

Lemma warnings_no_convert es : Forall is_warning es -> count_converts es = 0%nat.
Proof.
  induction 1 as [| e es He _ IH]; [reflexivity |].
  unfold count_converts in *. simpl.
  destruct e as [[] msg | | | |]; simpl in *; try contradiction; exact IH.
Qed.

Lemma silent_no_payload es : Forall silent es -> payloads es = [].
Proof.
  induction 1 as [| e es He _ IH]; [reflexivity |]. simpl.
  destruct e; simpl in *; try contradiction; exact IH.
Qed.

Lemma error_log_failure options e :
  error_log (failure options e) = [Log ERROR ("Error processing document: " +:+ e)].
Proof. reflexivity. Qed.

Lemma error_log_flattened w p options cr out :
  result (flatten w p options cr) = Done out -> error_log out = [].
Proof.
  intros H. apply flatten_done in H as (size & _ & H). destruct cr as [d |].
  - destruct H as (c & md & ts & fs & ls & -> & _). reflexivity.
  - subst out. reflexivity.
Qed.

(** *** The pipeline options *)

(** X1. An option only ever switches a pipeline feature on: each feature of
    the configured pipeline is on when its option is truthy (an absent
    option counting as on, except for equations) or when the library's
    default has it on; table extraction and table structure recognition go
    together. From the command line the options are the flags; with no
    option at all everything but equations is switched on. *)
Theorem configure_closed_form (options : gmap string value) (args : Args)
    (p : PipelineOptions) :
  configure options p =
    {| table_extraction := option_on options "extract_tables" true || table_extraction p;
       table_structure_recognition :=
         option_on options "extract_tables" true || table_structure_recognition p;
       figure_extraction := option_on options "extract_figures" true || figure_extraction p;
       equation_extraction :=
         option_on options "extract_equations" false || equation_extraction p;
       layout_preservation :=
         option_on options "preserve_layout" true || layout_preservation p |} /\
  configure (cli_options args) p =
    {| table_extraction := extract_tables args || table_extraction p;
       table_structure_recognition := extract_tables args || table_structure_recognition p;
       figure_extraction := extract_figures args || figure_extraction p;
       equation_extraction := extract_equations args || equation_extraction p;
       layout_preservation := preserve_layout args || layout_preservation p |} /\
  configure ∅ p =
    {| table_extraction := true;
       table_structure_recognition := true;
       figure_extraction := true;
       equation_extraction := equation_extraction p;
       layout_preservation := true |}.
Proof.
  assert (H : forall o, configure o p =
    {| table_extraction := option_on o "extract_tables" true || table_extraction p;
       table_structure_recognition :=
         option_on o "extract_tables" true || table_structure_recognition p;
       figure_extraction := option_on o "extract_figures" true || figure_extraction p;
       equation_extraction :=
         option_on o "extract_equations" false || equation_extraction p;
       layout_preservation :=
         option_on o "preserve_layout" true || layout_preservation p |}).
  { intros o. unfold configure. destruct p as [te ts fe ee lp].
    destruct (option_on o "extract_tables" true),
      (option_on o "extract_figures" true),
      (option_on o "extract_equations" false),
      (option_on o "preserve_layout" true); reflexivity. }
  split; [apply H |]. split.
  - rewrite H. destruct (cli_option_on args) as (-> & -> & -> & -> & _). reflexivity.
  - rewrite H. reflexivity.
Qed.

(** *** The converter *)

(** X2. Once a call of [process_document] has returned, the processor holds
    a converter, and every later call on that processor returns as well,
    with the processor unchanged: the converter is not built again, whatever
    the options of the later call and whether or not a converter could still
    be built. *)
Theorem converter_reused (w : World) (self : DoclingProcessor) (p : Path)
    (options : gmap string value) (s : DoclingProcessor) (r : dict) :
  result (process_document w self p options) = Done (s, r) ->
  exists conv,
    converter s = Some conv /\
    forall w' p' options',
      converter_of w' s options' = Ok conv /\
      exists r', result (process_document w' s p' options') = Done (s, r').
Proof.
  intros H. apply process_document_done in H as (conv & _ & -> & _).
  exists conv. split; [reflexivity |]. intros w' p' options'.
  split; [reflexivity |].
  rewrite process_document_eq. cbn [converter_of converter].
  destruct (conv (path_text p')) as [cr | e]; [| eauto].
  destruct (result (flatten w' p' options' cr)) as [out | e | c] eqn:E; eauto.
  exfalso. destruct (quiet_flatten w' p' options' cr) as [_ Hx]. exact (Hx c E).
Qed.

Lemma construction_failure w self p options msg :
  converter_of w self options = Raise msg ->
  result (process_document w self p options) = Raised msg /\
  events (process_document w self p options) = [].
Proof.
  unfold converter_of, process_document, initialize_converter.
  destruct self as [[c |]]; cbn [converter]; [discriminate |].
  intros ->. split; reflexivity.
Qed.

(** X3. [process_document] never leaves the process, and the only exception
    it lets out is one raised while building the converter, which happens
    before the [try] block and before the first log line. *)
Theorem only_construction_escapes (w : World) (self : DoclingProcessor)
    (p : Path) (options : gmap string value) :
  (forall c, result (process_document w self p options) <> Exited c) /\
  (forall msg,
     result (process_document w self p options) = Raised msg <->
     converter_of w self options = Raise msg) /\
  (forall msg,
     converter_of w self options = Raise msg ->
     events (process_document w self p options) = []).
Proof.
  split; [apply quiet_process_document |]. split.
  - intros msg. rewrite process_document_eq.
    destruct (converter_of w self options) as [conv | msg'].
    + split; [| discriminate].
      destruct (conv (path_text p)) as [cr | e]; [| discriminate].
      destruct (result (flatten w p options cr)); discriminate.
    + split; congruence.
  - intros msg H. exact (proj2 (construction_failure w self p options msg H)).
Qed.

(** X4. Options without an [output_format] entry: on a [Document] the
    lookup [options['output_format']] raises [KeyError], so the call returns
    a failure whose error is the quoted key, and whose format is the default
    ['json']. *)
Theorem missing_format_key (w : World) (self : DoclingProcessor) (p : Path)
    (options : gmap string value) (conv : DocumentConverter) (d : Document)
    (size : Z) :
  options !! "output_format" = None ->
  converter_of w self options = Ok conv ->
  conv (path_text p) = Ok (IsDocument d) ->
  fs_size w p = Some size ->
  result (process_document w self p options) =
  Done ({| converter := Some conv |},
        [ ("success", VBool false);
          ("error", VStr "'output_format'");
          ("format", VStr "json") ]).
Proof.
  intros Hkey Hc Hconv Hfs. rewrite process_document_eq, Hc, Hconv.
  unfold flatten, stat_size, flatten_document, output_format_of, failure.
  rewrite Hfs, Hkey. reflexivity.
Qed.

(** X5. The trace of a call of [process_document] with a converter: the
    line announcing the document, then exactly one conversion call on the
    path, then warnings only, and at the end one error line exactly when the
    returned result is a failure. *)
Theorem process_document_trace (w : World) (self : DoclingProcessor) (p : Path)
    (options : gmap string value) (conv : DocumentConverter) :
  converter_of w self options = Ok conv ->
  exists r warnings,
    result (process_document w self p options) = Done ({| converter := Some conv |}, r) /\
    Forall is_warning warnings /\
    events (process_document w self p options) =
      Log INFO ("Processing document: " +:+ path_text p) ::
      Convert (path_text p) :: warnings ++ error_log r /\
    count_converts (events (process_document w self p options)) = 1%nat.
Proof.
  intros Hc.
  assert (H : exists r warnings,
    result (process_document w self p options) = Done ({| converter := Some conv |}, r) /\
    Forall is_warning warnings /\
    events (process_document w self p options) =
      Log INFO ("Processing document: " +:+ path_text p) ::
      Convert (path_text p) :: warnings ++ error_log r).
  { rewrite process_document_eq, (process_document_events _ _ _ _ _ Hc), Hc.
    destruct (conv (path_text p)) as [cr | e].
    - pose proof (flatten_warnings w p options cr) as Hw.
      destruct (result (flatten w p options cr)) as [out | e | c] eqn:E.
      + exists out, (events (flatten w p options cr)).
        rewrite (error_log_flattened _ _ _ _ _ E). auto.
      + exists (failure options e), (events (flatten w p options cr)).
        rewrite error_log_failure. auto.
      + exfalso. destruct (quiet_flatten w p options cr) as [_ Hx]. exact (Hx c E).
    - exists (failure options e), []. rewrite error_log_failure. auto. }
  destruct H as (r & warnings & Hr & Hw & He). exists r, warnings.
  repeat split; try assumption.
  rewrite He. change (count_converts (?a :: Convert ?b :: ?l))
    with (S (count_converts l)).
  rewrite count_converts_app, (warnings_no_convert _ Hw).
  unfold error_log. destruct (dict_get "error" r) as [[[| | | | e |] | |] |]; reflexivity.
Qed.

(** *** [main] *)

Lemma write_output_effects w args r :
  count_converts (events (write_output w args r)) = 0%nat /\
  (length (payloads (events (write_output w args r))) <= 1)%nat /\
  (result (write_output w args r) = Done tt ->
   length (payloads (events (write_output w args r))) = 1%nat).
Proof.
  unfold write_output, json_dumps.
  destruct (output_file args) as [[| ch f] |]; destruct (is_json (output_format args));
    try destruct (open_w w _); try destruct (first_foreign (VDict r));
    try (destruct (dict_get_default "content" (VStr "") r) as [[| b | z | fl | txt | cls rp] | l | d]);
    cbn; repeat split; first [lia | discriminate | reflexivity].
Qed.

Lemma cli_converter_of w args :
  converter_of w new_processor (cli_options args)
  = new_converter w (configure (cli_options args) (pipeline_defaults w)).
Proof. reflexivity. Qed.

(** X6. A run of [main] calls the converter at most once and prints or
    writes at most one payload; a run that returns from [main] has called it
    exactly once and has produced exactly one payload. *)
Theorem main_acts_once (w : World) (args : Args) :
  (count_converts (events (main w args)) <= 1)%nat /\
  (length (payloads (events (main w args))) <= 1)%nat /\
  (forall code,
     result (main w args) = Done code ->
     count_converts (events (main w args)) = 1%nat /\
     length (payloads (events (main w args))) = 1%nat).
Proof.
  destruct (fs_size w (pathlib w (input_file args))) as [n |] eqn:Hfs.
  2: { rewrite (main_missing _ _ Hfs). cbn. repeat split; try lia; discriminate. }
  rewrite (main_present _ _ _ Hfs), events_bind, result_bind.
  destruct (converter_of w new_processor (cli_options args)) as [conv | msg] eqn:Hc.
  - destruct (process_document_trace w new_processor (pathlib w (input_file args))
                (cli_options args) conv Hc) as (r & warnings & Hr & _ & _ & Hcount).
    fold (cli_run w args) in Hr, Hcount. rewrite Hr. cbn [snd].
    assert (Hp : payloads (events (cli_run w args)) = []).
    { apply silent_no_payload, quiet_process_document. }
    rewrite count_converts_app, payloads_app, Hcount, Hp, events_bind, result_bind.
    destruct (write_output_effects w args r) as (Hwc & Hwp & Hwd).
    destruct (result (write_output w args r)) as [[] | msg | c] eqn:Hw;
      cbn [ret events result fst snd app]; rewrite ?app_nil_r, Hwc.
    + rewrite (Hwd eq_refl). repeat split; lia.
    + repeat split; try lia; discriminate.
    + repeat split; try lia; discriminate.
  - destruct (construction_failure w new_processor (pathlib w (input_file args))
                (cli_options args) msg Hc) as (Hraised & Hev).
    fold (cli_run w args) in Hraised, Hev. rewrite Hraised, Hev. cbn.
    repeat split; try lia; discriminate.
Qed.

(** X8. A result holding a value that [json] cannot encode, such as a
    metadata title passed through from the library as a foreign object,
    makes a json-format run end with status 1 without printing or writing
    any document, whatever the [success] entry of the result says. *)
Theorem unserializable_result (w : World) (args : Args) (s : DoclingProcessor)
    (r : dict) (cls : string) :
  output_format args = json ->
  result (cli_run w args) = Done (s, r) ->
  first_foreign (VDict r) = Some cls ->
  payloads (events (main w args)) = [] /\
  exit_status (main w args) = 1.
Proof.
  intros Hjson Hrun Hforeign.
  destruct (fs_size w (pathlib w (input_file args))) as [n |] eqn:Hfs.
  2: { rewrite (main_missing _ _ Hfs). split; reflexivity. }
  rewrite exit_status_main, Hfs, Hrun.
  rewrite (main_present _ _ _ Hfs), events_bind, Hrun. cbn [snd].
  rewrite payloads_app, events_bind.
  assert (Hp : payloads (events (cli_run w args)) = []).
  { apply silent_no_payload, quiet_process_document. }
  rewrite Hp. unfold write_output, json_dumps. rewrite Hjson, Hforeign.
  destruct (output_file args) as [[| ch f] |]; try (split; reflexivity).
  destruct (open_w w _); split; reflexivity.
Qed.

(** *** Tables *)

Lemma str_cells_done cells v :
  result (str_cells cells) = Done v ->
  exists l, cells = Items l /\ v = cells_value l.
Proof.
  unfold str_cells. destruct cells as [l | msg]; [| discriminate].
  intros [= <-]. eauto.
Qed.

Lemma rows_loop_done rs : forall h acc c out,
  result (for_each rs (fun row td =>
            let* cells := str_cells row in
            ret (dict_append "rows" cells td)) (table_dict h (VList acc) c)) = Done out ->
  exists rows,
    plain_rows rs = Some rows /\
    out = table_dict h (VList (acc ++ map cells_value rows)) c.
Proof.
  induction rs as [| row rs IH]; intros h acc c out H.
  - injection H as <-. exists []. rewrite app_nil_r. split; reflexivity.
  - cbn [for_each] in H. apply bind_done in H as (td & Hrow & H).
    apply bind_done in Hrow as (cells & Hcells & Htd).
    apply str_cells_done in Hcells as (l & -> & ->).
    injection Htd as <-.
    change (dict_append "rows" (cells_value l) (table_dict h (VList acc) c))
      with (table_dict h (VList (acc ++ [cells_value l])) c) in H.
    apply IH in H as (rows & Hrows & ->).
    exists (l :: rows). cbn [plain_rows]. rewrite Hrows.
    split; [reflexivity |]. rewrite <- app_assoc. reflexivity.
Qed.

(** X9. Whenever a table is flattened, its record has exactly the keys
    headers, rows, caption, confidence; the headers and every row are the
    table's cells in order, each turned into a string with [str]; a missing
    header, rows or caption gives the empty list or string; and the
    confidence is the constant 0.979 whatever the table. *)
Theorem table_record (t : Table) (td : dict) :
  result (table_data t) = Done td ->
  exists hs rows cap,
    header_cells t = Some hs /\
    row_cells t = Some rows /\
    table_caption_text t = Some cap /\
    td = [ ("headers", cells_value hs);
           ("rows", VList (map cells_value rows));
           ("caption", VStr cap);
           ("confidence", VFloat "0.979") ].
Proof.
  unfold table_data. intros H.
  apply bind_done in H as (td1 & Hh & H).
  apply bind_done in H as (td2 & Hr & Hc).
  assert (H1 : exists hs, header_cells t = Some hs /\
                          td1 = table_dict (cells_value hs) (VList []) "").
  { unfold header_cells. destruct (table_header t) as [| cells | msg]; cbn [if_hasattr] in Hh.
    - injection Hh as <-. exists []. split; reflexivity.
    - apply bind_done in Hh as (v & Hv & Hh). injection Hh as <-.
      apply str_cells_done in Hv as (l & -> & ->). exists l. split; reflexivity.
    - discriminate. }
  destruct H1 as (hs & Hhs & ->).
  assert (H2 : exists rows, row_cells t = Some rows /\
                 td2 = table_dict (cells_value hs) (VList (map cells_value rows)) "").
  { unfold row_cells. destruct (table_rows t) as [| it | msg]; cbn [if_hasattr] in Hr.
    - injection Hr as <-. exists []. split; reflexivity.
    - apply bind_done in Hr as (rs & Hit & Hr).
      destruct it as [l | msg]; [| discriminate]. injection Hit as <-.
      apply rows_loop_done in Hr as (rows & Hrows & ->). eauto.
    - discriminate. }
  destruct H2 as (rows & Hrows & ->).
  exists hs, rows. unfold table_caption_text.
  destruct (table_caption t) as [| c | msg]; simpl in Hc.
  - injection Hc as <-. exists "". auto.
  - injection Hc as <-. exists (str c). auto.
  - discriminate.
Qed.

(** X10. With their flags on, the tables and the figures of a flattened
    document come out one record per item, in the order of the items. *)
Theorem tables_and_figures_in_order (w : World) (p : Path)
    (options : gmap string value) (d : Document) (out : dict) :
  result (flatten w p options (IsDocument d)) = Done out ->
  (forall ts,
     option_on options "extract_tables" true = true ->
     tables d = Has (Items ts) ->
     exists tds,
       dict_get "tables" out = Some (VList (map VDict tds)) /\
       Forall2 (fun t td => result (table_data t) = Done td) ts tds) /\
  (forall fs,
     option_on options "extract_figures" true = true ->
     figures d = Has (Items fs) ->
     exists fds,
       dict_get "figures" out = Some (VList (map VDict fds)) /\
       Forall2 (fun f fd => result (figure_data w f) = Done fd) fs fds).
Proof.
  intros H.
  apply flatten_done in H as (size & _ & (c & md & ts' & fs' & ls & -> & _ & _ & Ht & Hf & _)).
  split.
  - intros ts Hon Hts. rewrite Hon, Hts in Ht. destruct Ht as (rs & Hrs & ->). eauto.
  - intros fs Hon Hfs. rewrite Hon, Hfs in Hf. destruct Hf as (rs & Hrs & ->). eauto.
Qed.

(** *** Figures *)

(** X11. Whenever a figure is flattened, its record is the caption (empty
    when there is none), the type [figure], and under [base64] the encoded
    PNG when PIL can be imported and the image is a PIL image that saves, and
    [None] in every other case. The image payload never makes the record
    fail: building it raises only when reading the caption or the image
    attribute itself raises. *)
Theorem figure_record (w : World) (f : Figure) :
  (forall fd,
     result (figure_data w f) = Done fd ->
     exists cap,
       caption_text f = Some cap /\
       fd = [ ("caption", VStr cap); ("type", VStr "figure");
              ("base64", base64_of w f) ]) /\
  (forall msg,
     result (figure_data w f) = Raised msg <->
     figure_caption f = Faulty msg \/
     (caption_text f <> None /\ figure_image f = Faulty msg)).
Proof.
  unfold figure_data, encode_image, caption_text, base64_of.
  destruct (figure_caption f) as [| c | cmsg];
    destruct (figure_image f) as [| [[png | e] |] | imsg];
    destruct (import_pil w) as [[] | e']; cbn;
    (split;
     [ intros fd H; try discriminate; injection H as <-; eauto
     | intros msg; split;
       [ intros H; try discriminate; injection H as <-; auto
       | intros [H | [Hc H]]; try discriminate; try congruence ] ]).
Qed.

(** *** Layout *)

Lemma first_match_in_tags s : In (first_match precedence s) layout_tags.
Proof.
  unfold first_match, precedence, layout_tags. cbn [existsb].
  repeat match goal with
         | |- context [contains ?k s] => destruct (contains k s); cbn [orb]
         end;
    simpl; auto 10.
Qed.

Lemma element_tag_in_tags e : In (element_tag e) layout_tags.
Proof.
  unfold element_tag, type_tag.
  destruct (element_type e); try apply first_match_in_tags; simpl; auto.
Qed.

Lemma bbox_dict_done b box :
  result (bbox_dict b) = Done box -> bbox_value b = Some box.
Proof.
  unfold bbox_dict, bbox_value.
  destruct (bbox_x b), (bbox_y b), (bbox_width b), (bbox_height b);
    cbn; congruence.
Qed.

(** A layout record, entry by entry. *)
Lemma layout_element_full e le :
  result (layout_element e) = Done le ->
  exists content lvl meta,
    le = element_record (element_tag e) content lvl meta /\
    level_attached e (element_tag e) lvl /\
    element_text_of e = Some content /\
    element_meta_of e = Some meta.
Proof.
  unfold layout_element. intros H.
  apply bind_done in H as (le1 & Hty & H).
  apply bind_done in H as (le2 & Htext & H).
  apply bind_done in H as (le3 & Hbox & H).
  assert (H1 : exists lvl, le1 = element_record (element_tag e) "" lvl [] /\
                           level_attached e (element_tag e) lvl).
  { unfold element_tag, type_tag.
    destruct (element_type e) as [| ty | msg]; cbn [if_hasattr] in Hty.
    - injection Hty as <-. exists VNone. split; [reflexivity | left; reflexivity].
    - apply classify_done in Hty. exact Hty.
    - discriminate. }
  destruct H1 as (lvl & -> & Hlvl).
  assert (H2 : exists content, le2 = element_record (element_tag e) content lvl [] /\
                               element_text_of e = Some content).
  { unfold element_text_of. destruct (element_text e) as [| t | msg].
    - destruct (element_content e) as [| c | msg]; simpl in Htext;
        [| | discriminate]; injection Htext as <-; eauto.
    - injection Htext as <-. eauto.
    - discriminate. }
  destruct H2 as (content & -> & Hcontent).
  unfold element_meta_of.
  destruct (element_bbox e) as [| b | msg]; cbn [if_hasattr] in Hbox.
  - injection Hbox as <-.
    destruct (element_page e) as [| pg | msg]; simpl in H;
      [| | discriminate]; injection H as <-; eauto 10.
  - apply bind_done in Hbox as (box & Hb & Hbox). injection Hbox as <-.
    rewrite (bbox_dict_done _ _ Hb).
    destruct (element_page e) as [| pg | msg]; simpl in H;
      [| | discriminate]; injection H as <-; eauto 10.
  - discriminate.
Qed.

(** X12. Whenever a layout element is flattened, its record has exactly the
    keys type, content, level, metadata; the type is one of the eight tags;
    the content is [str(element.text)] when the element has a text, else
    [str(element.content)] when it has a content, else the empty string; and
    the level is [None] or an integer. *)
Theorem layout_record (e : Element) (le : dict) :
  result (layout_element e) = Done le ->
  exists tag content lvl meta,
    le = [ ("type", VStr tag); ("content", VStr content); ("level", lvl);
           ("metadata", VDict meta) ] /\
    In tag layout_tags /\
    element_text_of e = Some content /\
    (lvl = VNone \/ exists n, lvl = VInt n).
Proof.
  intros H. apply layout_element_full in H as (content & lvl & meta & -> & Hl & Hc & _).
  exists (element_tag e), content, lvl, meta.
  split; [reflexivity |]. split; [apply element_tag_in_tags |].
  split; [exact Hc |].
  destruct Hl as [-> | (_ & n & _ & ->)]; eauto.
Qed.

(** X13. The metadata of a layout record holds a [bbox] entry exactly when
    the element has a bounding box, made of its x, y, width and height as
    the library gives them, followed by a [page] entry exactly when the
    element has a page. A bounding box lacking one of its four coordinates
    makes the element, and with it the whole flattening, fail. *)
Theorem layout_metadata (e : Element) :
  (forall le,
     result (layout_element e) = Done le ->
     exists meta,
       dict_get "metadata" le = Some (VDict meta) /\
       element_meta_of e = Some meta) /\
  (forall b,
     element_bbox e = Has b -> bbox_value b = None ->
     exists msg, result (layout_element e) = Raised msg).
Proof.
  split.
  - intros le H. apply layout_element_full in H as (content & lvl & meta & -> & _ & _ & Hm).
    exists meta. split; [reflexivity | exact Hm].
  - intros b Hb Hnone.
    destruct (result (layout_element e)) as [le | msg | c] eqn:E.
    + apply layout_element_full in E as (content & lvl & meta & _ & _ & _ & Hm).
      unfold element_meta_of in Hm. rewrite Hb, Hnone in Hm. discriminate.
    + eauto.
    + exfalso. destruct (quiet_layout_element e) as [_ Hx]. exact (Hx c E).
Qed.

(** *** Substrings and letter case *)

Lemma lower_app a b : lower (a +:+ b) = lower a +:+ lower b.
Proof. induction a as [| c a IH]; simpl; [reflexivity | rewrite IH; reflexivity]. Qed.

Lemma prefix_app n post : String.prefix n (n +:+ post) = true.
Proof.
  induction n as [| c n IH]; simpl.
  - destruct post; reflexivity.
  - destruct (Ascii.ascii_dec c c); [exact IH | contradiction].
Qed.

Lemma contains_prefix n hay : String.prefix n hay = true -> contains n hay = true.
Proof. intros H. destruct hay; cbn [contains]; rewrite H; reflexivity. Qed.

Lemma contains_app n pre post : contains n (pre +:+ n +:+ post) = true.
Proof.
  induction pre as [| c pre IH].
  - change ("" +:+ n +:+ post) with (n +:+ post).
    apply contains_prefix, prefix_app.
  - change (contains n (String c (pre +:+ n +:+ post)) = true).
    cbn [contains]. rewrite IH. apply orb_true_r.
Qed.

(** X14. A reported type that contains the word header or heading, in any
    mix of upper and lower case and wherever it stands in the string, is
    classified as a header, whatever other words the string contains. *)
Theorem header_wins (e : Element) (le : dict) (t : atom) (pre word post : string) :
  result (layout_element e) = Done le ->
  element_type e = Has t ->
  str t = pre +:+ word +:+ post ->
  lower word = "header" \/ lower word = "heading" ->
  dict_get "type" le = Some (VStr "header").
Proof.
  intros H Ht Hstr Hword.
  apply layout_element_full in H as (content & lvl & meta & -> & _).
  cbn. f_equal. f_equal. f_equal.
  unfold element_tag, type_tag. rewrite Ht, Hstr, !lower_app.
  unfold first_match, precedence. cbn [existsb].
  destruct Hword as [-> | ->]; rewrite contains_app; [reflexivity |].
  rewrite orb_true_r. reflexivity.
Qed.

(** *** Flags that are off *)

(** X15. With a flag off, the part of the document it governs is not looked
    at: flattening a document gives the same events and the same outcome as
    flattening it with the tables, figures or layout of the switched-off
    flags removed, even where reading them would have raised. *)
Theorem flatten_ignores_disabled (w : World) (p : Path)
    (options : gmap string value) (d : Document) :
  flatten w p options (IsDocument d)
  = flatten w p options (IsDocument (visible options d)).
Proof.
  unfold flatten, flatten_document, visible.
  cbn [to_markdown to_text metadata tables figures layout].
  destruct (option_on options "extract_tables" true),
    (option_on options "extract_figures" true),
    (option_on options "preserve_layout" true); reflexivity.
Qed.

(** ** On concrete runs *)

Import Examples.

(** X2 after a first call on [titled_document]. *)
Lemma converter_reused_witness :
  exists conv,
    converter {| converter := Some (converts_to titled_document) |} = Some conv /\
    forall w' p' options',
      converter_of w' {| converter := Some (converts_to titled_document) |} options'
        = Ok conv /\
      exists r',
        result (process_document w'
                  {| converter := Some (converts_to titled_document) |} p' options')
        = Done ({| converter := Some (converts_to titled_document) |}, r').
Proof.
  apply (converter_reused (world (converts_to titled_document) true) new_processor
           (plain_path "report.pdf") (cli_options args_json)
           {| converter := Some (converts_to titled_document) |} titled_output).
  vm_compute. reflexivity.
Defined.

(** X4 with no option at all. *)
Lemma missing_format_key_witness :
  result (process_document (world (converts_to titled_document) true) new_processor
            (plain_path "report.pdf") ∅) =
  Done ({| converter := Some (converts_to titled_document) |},
        [ ("success", VBool false);
          ("error", VStr "'output_format'");
          ("format", VStr "json") ]).
Proof.
  apply (missing_format_key (world (converts_to titled_document) true) new_processor
           (plain_path "report.pdf") ∅ (converts_to titled_document)
           titled_document 2048); reflexivity.
Defined.

(** X5 on a document with a figure that cannot be encoded. *)
Lemma process_document_trace_witness :
  exists r warnings,
    result (process_document (world (converts_to rich_document) true) new_processor
              (plain_path "report.pdf") (cli_options args_all))
      = Done ({| converter := Some (converts_to rich_document) |}, r) /\
    Forall is_warning warnings /\
    events (process_document (world (converts_to rich_document) true) new_processor
              (plain_path "report.pdf") (cli_options args_all)) =
      Log INFO "Processing document: report.pdf" ::
      Convert "report.pdf" :: warnings ++ error_log r /\
    count_converts
      (events (process_document (world (converts_to rich_document) true) new_processor
                 (plain_path "report.pdf") (cli_options args_all))) = 1%nat.
Proof.
  apply (process_document_trace (world (converts_to rich_document) true) new_processor
           (plain_path "report.pdf") (cli_options args_all)
           (converts_to rich_document)).
  reflexivity.
Defined.

(** X8 on a document whose title is a date object: the result says
    success, nothing is printed, and the status is 1. *)
Lemma unserializable_result_witness :
  dict_get "success" dated_output = Some (VBool true) /\
  payloads (events (main (world (converts_to dated_document) true) args_json)) = [] /\
  exit_status (main (world (converts_to dated_document) true) args_json) = 1.
Proof.
  split; [reflexivity |].
  apply (unserializable_result (world (converts_to dated_document) true) args_json
           {| converter := Some (converts_to dated_document) |} dated_output
           "datetime").
  - reflexivity.
  - vm_compute. reflexivity.
  - reflexivity.
Defined.

(** X9 on a table with two header cells and one row. *)
Lemma table_record_witness :
  exists hs rows cap,
    header_cells a_table = Some hs /\
    row_cells a_table = Some rows /\
    table_caption_text a_table = Some cap /\
    a_table_record =
      [ ("headers", cells_value hs);
        ("rows", VList (map cells_value rows));
        ("caption", VStr cap);
        ("confidence", VFloat "0.979") ].
Proof.
  apply (table_record a_table a_table_record). vm_compute. reflexivity.
Defined.

(** X10 on a document with one table and two figures. *)
Lemma tables_and_figures_in_order_witness :
  (forall ts,
     option_on (cli_options args_all) "extract_tables" true = true ->
     tables rich_document = Has (Items ts) ->
     exists tds,
       dict_get "tables" rich_output = Some (VList (map VDict tds)) /\
       Forall2 (fun t td => result (table_data t) = Done td) ts tds) /\
  (forall fs,
     option_on (cli_options args_all) "extract_figures" true = true ->
     figures rich_document = Has (Items fs) ->
     exists fds,
       dict_get "figures" rich_output = Some (VList (map VDict fds)) /\
       Forall2 (fun f fd =>
                  result (figure_data (world (converts_to rich_document) true) f)
                  = Done fd) fs fds).
Proof.
  apply (tables_and_figures_in_order (world (converts_to rich_document) true)
           (plain_path "report.pdf") (cli_options args_all) rich_document rich_output).
  vm_compute. reflexivity.
Defined.

(** X12 and X14 on an element reported as [TABLE_HEADER_ROW]. *)
Lemma layout_record_witness :
  exists tag content lvl meta,
    header_record =
      [ ("type", VStr tag); ("content", VStr content); ("level", lvl);
        ("metadata", VDict meta) ] /\
    In tag layout_tags /\
    element_text_of shouting_element = Some content /\
    (lvl = VNone \/ exists n, lvl = VInt n).
Proof.
  apply (layout_record shouting_element header_record). vm_compute. reflexivity.
Defined.

Lemma header_wins_witness :
  dict_get "type" header_record = Some (VStr "header").
Proof.
  apply (header_wins shouting_element header_record (AStr "TABLE_HEADER_ROW")
           "TABLE_" "HEADER" "_ROW").
  - vm_compute. reflexivity.
  - reflexivity.
  - reflexivity.
  - left. reflexivity.
Defined.
End MoreFacts.
